(** * The user-events pipeline: S3 -> normalisation -> environment buckets -> MongoDB

    A shallow embedding of [dags/scripts/s3_to_mongo_download.py].

    Python values are an inductive type, a [dict] is an insertion-ordered
    association list, a pandas [DataFrame] is a list of column labels with a
    list of rows, exceptions are an error monad, and the MongoDB database is a
    finite map from collection names to collections that is threaded through
    the loader together with the log.

    Column labels are modelled as ASCII strings: the upper-case letters are
    the ones of the source's own pattern [[A-Z]], and [str.lower] acts on
    them. *)

From Stdlib Require Import ZArith Ascii String List Bool.
From stdpp Require Import gmap strings list.
Import ListNotations.

Set Warnings "-register-all".
Local Open Scope string_scope.
Local Open Scope list_scope.

(** ** Python values *)

Module Py.

(** [VNaN] is pandas' missing-value marker (a float), [VNull] is [None]. *)
Inductive value : Type :=
| VNull
| VNaN
| VBool (b : bool)
| VNum (z : Z)
| VStr (s : string)
| VList (l : list value)
| VDict (d : list (string * value)).

Definition dict : Type := list (string * value).

Definition is_dict (v : value) : bool :=
  match v with VDict _ => true | _ => false end.

(** Structural equality of values, used by the store to compare index keys. *)
Fixpoint value_eqb (a b : value) {struct a} : bool :=
  match a, b with
  | VNull, VNull => true
  | VNaN, VNaN => true
  | VBool x, VBool y => Bool.eqb x y
  | VNum x, VNum y => Z.eqb x y
  | VStr x, VStr y => String.eqb x y
  | VList l, VList l' =>
      (fix go (l l' : list value) : bool :=
         match l, l' with
         | [], [] => true
         | x :: l, y :: l' => value_eqb x y && go l l'
         | _, _ => false
         end) l l'
  | VDict d, VDict d' =>
      (fix go (d d' : list (string * value)) : bool :=
         match d, d' with
         | [], [] => true
         | (k, x) :: d, (k', y) :: d' => String.eqb k k' && value_eqb x y && go d d'
         | _, _ => false
         end) d d'
  | _, _ => false
  end.

(** [d.get(k)] *)
Fixpoint dict_get (k : string) (d : dict) : option value :=
  match d with
  | [] => None
  | (k', v) :: d' => if String.eqb k k' then Some v else dict_get k d'
  end.

(** [d[k] = v]: an existing key keeps its position, a new key goes last. *)
Fixpoint dict_set (k : string) (v : value) (d : dict) : dict :=
  match d with
  | [] => [(k, v)]
  | (k', v') :: d' =>
      if String.eqb k k' then (k, v) :: d' else (k', v') :: dict_set k v d'
  end.

(** [{**a, **b}] *)
Definition dict_update (a b : dict) : dict :=
  fold_left (fun acc kv => dict_set (fst kv) (snd kv) acc) b a.

Definition keys (d : dict) : list string := map fst d.

(** Exceptions the pipeline can meet. *)
Inductive exn : Type :=
| KeyError (key : string)
| ValueError (msg : string)
| TypeError (msg : string)
| OperationFailure (code : Z)
| ConfigurationError
| ServerSelectionTimeoutError
| OverflowError
| InvalidDocument
| DocumentTooLarge.

Inductive result (A : Type) : Type :=
| Ok (a : A)
| Raise (e : exn).
Arguments Ok {A} a.
Arguments Raise {A} e.

Global Instance result_bind : MBind result := fun A B f m =>
  match m with
  | Ok a => f a
  | Raise e => Raise e
  end.

Global Instance result_ret : MRet result := fun A a => Ok a.

End Py.
Export Py.

(** ** Strings: the [str] and [re] operations the source uses *)

Module Str.

Definition is_upper (c : ascii) : bool :=
  let n := N_of_ascii c in ((65 <=? n) && (n <=? 90))%N.

Definition to_lower (c : ascii) : ascii :=
  if is_upper c then ascii_of_N (N_of_ascii c + 32) else c.

(** [s.lower()] *)
Fixpoint lower (s : string) : string :=
  match s with
  | EmptyString => EmptyString
  | String c s' => String (to_lower c) (lower s')
  end.

(** [s.lstrip(c)] and [s.rstrip(c)] for a one-character argument *)
Fixpoint lstrip (c : ascii) (s : string) : string :=
  match s with
  | EmptyString => EmptyString
  | String a s' => if Ascii.eqb a c then lstrip c s' else s
  end.

Fixpoint rstrip (c : ascii) (s : string) : string :=
  match s with
  | EmptyString => EmptyString
  | String a s' =>
      match rstrip c s' with
      | EmptyString => if Ascii.eqb a c then EmptyString else String a EmptyString
      | r => String a r
      end
  end.

(** [s.strip(c)] *)
Definition strip (c : ascii) (s : string) : string := rstrip c (lstrip c s).

(** [re.sub(r'\.', '_', s)], and in general replacing one character *)
Fixpoint replace_char (a b : ascii) (s : string) : string :=
  match s with
  | EmptyString => EmptyString
  | String c s' => String (if Ascii.eqb c a then b else c) (replace_char a b s')
  end.

(** [re.compile(r'(?<!^)(?=[A-Z])').sub('_', s)]: the pattern matches the
    empty string at every position but the first that stands before an
    upper-case letter, so an underscore is put in front of each such letter. *)
Fixpoint underscore_before_upper (s : string) : string :=
  match s with
  | EmptyString => EmptyString
  | String c s' =>
      if is_upper c then String "_" (String c (underscore_before_upper s'))
      else String c (underscore_before_upper s')
  end.

Definition pattern_sub (s : string) : string :=
  match s with
  | EmptyString => EmptyString
  | String c s' => String c (underscore_before_upper s')
  end.

(** [c in s] *)
Fixpoint contains (c : ascii) (s : string) : bool :=
  match s with
  | EmptyString => false
  | String a s' => Ascii.eqb a c || contains c s'
  end.

Fixpoint has_upper (s : string) : bool :=
  match s with
  | EmptyString => false
  | String a s' => is_upper a || has_upper s'
  end.

Definition starts_with (c : ascii) (s : string) : bool :=
  match s with
  | EmptyString => false
  | String a _ => Ascii.eqb a c
  end.

(** [x in l] for a list of strings *)
Definition mem (x : string) (l : list string) : bool :=
  existsb (String.eqb x) l.

End Str.

(** ** pandas: [json_normalize] and the [DataFrame] operations in use *)

Module Pandas.

Record DataFrame : Type := mkDataFrame {
  columns : list string;
  rows : list (list value)
}.

(** [f"{key_string}{separator}{key}"], without the separator at top level *)
Definition new_key (key_string key : string) : string :=
  if String.eqb key_string "" then key
  else String.append key_string (String.append "_" key).

(** [_normalise_json] with [separator='_']: descend into nested dicts,
    anything else (lists included) is stored under the joined key. *)
Fixpoint normalise_json (key_string : string) (data : value) (acc : dict) : dict :=
  match data with
  | VDict fields =>
      (fix each (fs : list (string * value)) (acc : dict) : dict :=
         match fs with
         | [] => acc
         | (key, v) :: fs' => each fs' (normalise_json (new_key key_string key) v acc)
         end) fields acc
  | _ => dict_set key_string data acc
  end.

(** [_normalise_json_ordered]: the top-level scalars first, then the
    flattened nested dicts. *)
Definition normalise_json_ordered (data : dict) : dict :=
  let top := List.filter (fun kv => negb (is_dict (snd kv))) data in
  let nested := List.filter (fun kv => is_dict (snd kv)) data in
  dict_update (dict_update [] top) (normalise_json "" (VDict nested) []).

(** The union of several label lists, in order of first appearance. *)
Definition add_labels (seen labels : list string) : list string :=
  fold_left (fun acc k => if Str.mem k acc then acc else acc ++ [k]) labels seen.

Definition union_labels (ls : list (list string)) : list string :=
  fold_left add_labels ls [].

(** [DataFrame(list_of_dicts)]: a label missing from a dict is [NaN]. *)
Definition from_records (ds : list dict) : DataFrame :=
  let cols := union_labels (map keys ds) in
  {| columns := cols;
     rows := map (fun d => map (fun c => default VNaN (dict_get c d)) cols) ds |}.

(** [pd.json_normalize(data, sep='_')] *)
Definition json_normalize (data : list dict) : DataFrame :=
  from_records (map normalise_json_ordered data).

(** [df.rename(columns=f)] *)
Definition rename (f : string -> string) (df : DataFrame) : DataFrame :=
  {| columns := map f (columns df); rows := rows df |}.

(** Keep the positions of [l] that [mask] marks. *)
Fixpoint select {A} (mask : list bool) (l : list A) : list A :=
  match mask, l with
  | b :: mask', x :: l' => if b then x :: select mask' l' else select mask' l'
  | _, _ => []
  end.

(** [df.drop(columns=names, errors='ignore')] *)
Definition drop (names : list string) (df : DataFrame) : DataFrame :=
  let mask := map (fun c => negb (Str.mem c names)) (columns df) in
  {| columns := select mask (columns df);
     rows := map (select mask) (rows df) |}.

(** A row with its labels, as [df.apply(f, axis=1)] hands it to [f]. *)
Definition labelled (df : DataFrame) (row : list value) : dict :=
  combine (columns df) row.

(** The records of a frame, one dict per row. *)
Definition records (df : DataFrame) : list dict :=
  map (labelled df) (rows df).

(** [row[key]]: a missing label raises [KeyError]; a label that occurs more
    than once selects a [Series], which is no scalar. *)
Inductive selection : Type :=
| Scalar (v : value)
| SubSeries (vs : list value).

Definition getitem (row : dict) (key : string) : result selection :=
  match List.filter (fun kv => String.eqb key (fst kv)) row with
  | [] => Raise (KeyError key)
  | [(_, v)] => Ok (Scalar v)
  | kvs => Ok (SubSeries (map snd kvs))
  end.

(** [df[key] = series]: every column labelled [key] takes the new values,
    and a new column is appended when there is none. *)
Definition set_cell (key : string) (v : value) (row : dict) : list value :=
  if Str.mem key (keys row)
  then map (fun kv => if String.eqb key (fst kv) then v else snd kv) row
  else map snd row ++ [v].

Definition setitem (key : string) (series : list value) (df : DataFrame) : DataFrame :=
  {| columns := if Str.mem key (columns df) then columns df else columns df ++ [key];
     rows := map (fun rv => set_cell key (snd rv) (labelled df (fst rv)))
                 (combine (rows df) series) |}.

(** [df[mask]] for a boolean row mask *)
Definition filter_rows (p : dict -> bool) (df : DataFrame) : DataFrame :=
  {| columns := columns df;
     rows := List.filter (fun row => p (labelled df row)) (rows df) |}.

Definition nan_to_null (v : value) : value :=
  match v with VNaN => VNull | _ => v end.

(** [json.loads(df.T.to_json()).values()]: one dict per row, [NaN] written as
    [null]; [to_json] refuses a transposed frame whose index (the column
    labels of [df]) is not unique. *)
Definition to_json_records (df : DataFrame) : result (list dict) :=
  if bool_decide (NoDup (columns df))
  then Ok (map (fun row => map (fun kv => (fst kv, nan_to_null (snd kv))) (labelled df row))
               (rows df))
  else Raise (ValueError "DataFrame index must be unique for orient='columns'.").

(** [pd.read_json(body, lines=True)]: one row per line, one column per
    top-level key. [None] is a body that is not line-delimited JSON. *)
Definition read_json (body : option (list dict)) : result DataFrame :=
  match body with
  | Some lines => Ok (from_records lines)
  | None => Raise (ValueError "Expected object or value")
  end.

(** [pd.concat(dfs, ignore_index=True)] *)
Definition concat (dfs : list DataFrame) : result DataFrame :=
  match dfs with
  | [] => Raise (ValueError "No objects to concatenate")
  | _ =>
      let cols := union_labels (map columns dfs) in
      Ok {| columns := cols;
            rows := flat_map
                      (fun df =>
                         map (fun row =>
                                map (fun c => default VNaN (dict_get c (labelled df row))) cols)
                             (rows df))
                      dfs |}
  end.

End Pandas.

(** ** urllib.parse: the network location of a URL

    [urlsplit] as far as [netloc] depends on it: the scheme is split off,
    and after [//] the location runs to the first of [/], [?] and [#]. The
    removal of control characters that recent interpreters do first is left
    out. *)

Module Url.

Definition is_alpha (c : ascii) : bool :=
  let n := N_of_ascii c in
  (((65 <=? n) && (n <=? 90)) || ((97 <=? n) && (n <=? 122)))%N.

Definition is_digit (c : ascii) : bool :=
  let n := N_of_ascii c in ((48 <=? n) && (n <=? 57))%N.

(** [scheme_chars]: letters, digits and [+-.] *)
Definition scheme_char (c : ascii) : bool :=
  is_alpha c || is_digit c || Ascii.eqb c "+" || Ascii.eqb c "-" || Ascii.eqb c ".".

Fixpoint all_chars (p : ascii -> bool) (s : string) : bool :=
  match s with
  | EmptyString => true
  | String c s' => p c && all_chars p s'
  end.

(** [s.partition(c)]: the text before and after the first [c], if any *)
Fixpoint partition (c : ascii) (s : string) : option (string * string) :=
  match s with
  | EmptyString => None
  | String a s' =>
      if Ascii.eqb a c then Some (EmptyString, s')
      else match partition c s' with
           | Some (before, after) => Some (String a before, after)
           | None => None
           end
  end.

(** What is left of the URL once a leading [scheme:] is taken off. *)
Definition drop_scheme (url : string) : string :=
  match partition ":" url with
  | Some (String c0 _ as scheme, rest) =>
      if is_alpha c0 && all_chars scheme_char scheme then rest else url
  | _ => url
  end.

(** [_splitnetloc(url, 2)]: up to the first of [/], [?] and [#] *)
Fixpoint splitnetloc (s : string) : string :=
  match s with
  | EmptyString => EmptyString
  | String c s' =>
      if Ascii.eqb c "/" || Ascii.eqb c "?" || Ascii.eqb c "#" then EmptyString
      else String c (splitnetloc s')
  end.

(** [netloc.partition('[')[2].partition(']')[0]] *)
Definition bracketed_host (netloc : string) : string :=
  match partition "[" netloc with
  | Some (_, after) =>
      match partition "]" after with
      | Some (host, _) => host
      | None => after
      end
  | None => EmptyString
  end.

Section Netloc.

(** The check of a bracketed host ([ipaddress] in recent interpreters, no
    check at all in older ones); [false] stands for a [ValueError]. *)
Variable check_bracketed_host : string -> bool.

(** [urlparse(url).netloc] *)
Definition urlparse_netloc (url : string) : result string :=
  match drop_scheme url with
  | String "/" (String "/" rest) =>
      let netloc := splitnetloc rest in
      if xorb (Str.contains "[" netloc) (Str.contains "]" netloc)
      then Raise (ValueError "Invalid IPv6 URL")
      else if Str.contains "[" netloc && negb (check_bracketed_host (bracketed_host netloc))
      then Raise (ValueError "invalid bracketed host")
      else Ok netloc
  | _ => Ok EmptyString
  end.

End Netloc.

End Url.

(** ** The transformation stages of [s3_to_mongo_download.py] *)

Module Pipeline.
Import Pandas.

Definition STAGING_DOMAINS : list string :=
  ["master.mwstream.com"; "studio.mwstream.com"].
Definition BETA_DOMAINS : list string :=
  ["beta-studio.mwstream.com"; "beta-library.mwstream.com"].
Definition PRODUCTION_DOMAINS : list string :=
  ["studio.masterwizr.com"; "stream.masterwizr.com"].

Definition cols_to_drop : list string :=
  ["app"; "amplitude_event_type"; "device_type"; "device_carrier"; "device_brand";
   "device_family"; "device_manufacturer"; "location_lat"; "location_lng"; "dma";
   "idfa"; "adid"; "library"; "platform"; "paying"; "groups"; "group_properties";
   "start_version"; "version_name"; "sample_rate"; "is_attribution_event";
   "amplitude_attribution_ids"; "event_properties_organizationId";
   "user_properties_organizationId"].

(** The body of the loop of [clean_column_names] *)
Definition clean_column_name (name : string) : string :=
  let name := Str.lower (Str.pattern_sub name) in
  Str.replace_char "." "_" name.

Definition clean_column_names (df : DataFrame) : DataFrame :=
  rename clean_column_name df.

Definition clean_data (data_dict : list dict) : DataFrame :=
  let data_df := json_normalize data_dict in
  let data_df := rename (Str.strip "$") data_df in
  let cleaned_data_df := drop cols_to_drop data_df in
  clean_column_names cleaned_data_df.

(** A canonical key: no upper-case letter, no leading [$], no period. *)
Definition canonical (k : string) : Prop :=
  Str.has_upper k = false /\ Str.starts_with "$" k = false /\ Str.contains "." k = false.

(** The labels after flattening and prefix stripping, before the exclusion. *)
Definition stripped_columns (data_dict : list dict) : list string :=
  columns (rename (Str.strip "$") (json_normalize data_dict)).

(** No string is in both lists. *)
Definition disjoint (l1 l2 : list string) : bool :=
  forallb (fun x => negb (Str.mem x l2)) l1.

(** [series.isin(domains)] on one cell *)
Definition isin (domains : list string) (v : value) : bool :=
  match v with
  | VStr s => Str.mem s domains
  | _ => false
  end.

Section Classifier.

Variable check_bracketed_host : string -> bool.

Definition apply_domain (row : dict) : result value :=
  url ← getitem row "event_properties_url";
  match url with
  | Scalar (VStr s) =>
      netloc ← Url.urlparse_netloc check_bracketed_host s;
      Ok (VStr netloc)
  | _ => Ok VNull
  end.

(** [df['domain'] = df.apply(apply_domain, axis=1)]. [apply] calls the
    function on every row, and the first exception ends the call. On a frame
    without rows or without columns it calls the function on no row of the
    frame: pandas tries it once on a row of NaN under the frame's labels, to
    see what it gives. When that call returns, as [apply_domain] does when
    the URL label is there, the result is a series without entries; when it
    raises, the exception is dropped and the result is a copy of the frame,
    and the assignment takes a frame only when it has one column: on a frame
    with no column or with several it raises [ValueError]. The frame of a
    batch without records has no rows and no columns. *)
Definition create_domain (df : DataFrame) : result DataFrame :=
  match rows df, columns df with
  | _ :: _, _ :: _ =>
      domain ← mapM apply_domain (records df);
      Ok (setitem "domain" domain df)
  | _, _ =>
      match apply_domain (map (fun label => (label, VNaN)) (columns df)) with
      | Ok _ => Ok (setitem "domain" [] df)
      | Raise _ =>
          match columns df with
          | [] =>
              Raise (ValueError "Cannot set a DataFrame without columns to the column domain")
          | [_] => Ok (setitem "domain" [] df)
          | _ =>
              Raise (ValueError
                "Cannot set a DataFrame with multiple columns to the single column domain")
          end
      end
  end.

(** [df[df['domain'].isin(domains)]]. With two columns labelled [domain]
    the mask is a frame and not a row mask; pandas then cannot align it with
    [df], which is modelled as the [ValueError] of the reindexing. *)
Definition domain_in (domains : list string) (df : DataFrame) : result DataFrame :=
  if bool_decide (count_occ string_dec (columns df) "domain" = 1)
  then Ok (filter_rows
             (fun row => isin domains (default VNull (dict_get "domain" row))) df)
  else Raise (ValueError "cannot reindex on an axis with duplicate labels").

(** [separate_environments] over arbitrary domain lists *)
Definition separate_by (staging beta production : list string) (df : DataFrame)
  : result (DataFrame * DataFrame * DataFrame) :=
  df ← create_domain df;
  staging_df ← domain_in staging df;
  beta_df ← domain_in beta df;
  production_df ← domain_in production df;
  Ok (staging_df, beta_df, production_df).

Definition separate_environments (df : DataFrame)
  : result (DataFrame * DataFrame * DataFrame) :=
  separate_by STAGING_DOMAINS BETA_DOMAINS PRODUCTION_DOMAINS df.

End Classifier.

End Pipeline.

(** ** The document store: collections with a unique index on [insert_id] *)

Module Mongo.

Record write_error : Type := mkWriteError {
  code : Z;
  errmsg : string
}.

Record collection : Type := mkCollection {
  docs : list dict;
  unique_insert_id : bool
}.

Definition empty_collection : collection :=
  {| docs := []; unique_insert_id := false |}.

(** The index key of a document; a document without the field is indexed
    under [null]. *)
Definition insert_id (d : dict) : value := default VNull (dict_get "insert_id" d).

Definition same_insert_id (d d' : dict) : bool :=
  value_eqb (insert_id d) (insert_id d').

Definition duplicate_key (d : dict) (ds : list dict) : bool :=
  existsb (same_insert_id d) ds.

Fixpoint distinct_keys (ds : list dict) : bool :=
  match ds with
  | [] => true
  | d :: ds' => negb (duplicate_key d ds') && distinct_keys ds'
  end.

(** [collection.create_index([('insert_id', ASCENDING)], name='insert_id',
    unique=True)]: nothing to do when the index exists; building it fails
    when the stored documents already share a key. *)
Definition create_index (c : collection) : result collection :=
  if unique_insert_id c then Ok c
  else if distinct_keys (docs c)
  then Ok {| docs := docs c; unique_insert_id := true |}
  else Raise (OperationFailure 11000).

Definition duplicate_key_error : write_error :=
  {| code := 11000; errmsg := "E11000 duplicate key error collection" |}.

Section Server.

(** Why the server refuses a document for another reason than the unique
    index (document validation, authorisation), if it does. *)
Variable rejects : dict -> option write_error.

(** [insert_many] builds its messages on the client, and the driver raises
    there, before the message in hand is sent, on a document it cannot send:
    [OverflowError] for an integer outside 64 bits, [InvalidDocument] for a
    value without a BSON type, [DocumentTooLarge]. [client_error documents]
    is [Some (n, e)] when that happens on [documents], [e] being the
    exception and [n] the number of documents in the messages sent before,
    and [None] when every document can be sent. *)
Variable client_error : list dict -> option (nat * exn).

(** The insert of one document. The [_id] that the driver adds to a
    document is left out: it is fresh and never the cause of a refusal. *)
Definition insert_one (c : collection) (d : dict) : collection + write_error :=
  match rejects d with
  | Some e => inr e
  | None =>
      if unique_insert_id c && duplicate_key d (docs c)
      then inr duplicate_key_error
      else inl {| docs := docs c ++ [d]; unique_insert_id := unique_insert_id c |}
  end.

(** The bulk write of [insert_many(documents, ordered)]: the collection
    afterwards and the [writeErrors] of the [BulkWriteError], if any. An
    ordered write, which is what [insert_many] does unless it is passed
    [ordered=False], stops at the first error; an unordered one tries every
    document. *)
Fixpoint bulk_insert (ordered : bool) (c : collection) (ds : list dict)
  : collection * list write_error :=
  match ds with
  | [] => (c, [])
  | d :: ds' =>
      match insert_one c d with
      | inl c' => bulk_insert ordered c' ds'
      | inr e =>
          if ordered then (c, [e])
          else let '(c', es) := bulk_insert ordered c ds' in (c', e :: es)
      end
  end.

(** [collection.insert_many(documents)]: the collection afterwards and how
    the call ends: [Ok []] when it returns, [Ok writeErrors] when it raises
    [BulkWriteError], [Raise e] when it raises something else. It raises
    [TypeError] when there is no document. The write is ordered: the
    documents go out in their order, and a write error ends the call with
    [BulkWriteError] before the next message is built. *)
Definition insert_many (c : collection) (documents : list dict)
  : collection * result (list write_error) :=
  match documents with
  | [] => (c, Raise (TypeError "documents must be a non-empty list"))
  | _ =>
      match client_error documents with
      | None =>
          let '(c, write_errors) := bulk_insert true c documents in
          (c, Ok write_errors)
      | Some (n, e) =>
          let '(c, write_errors) := bulk_insert true c (firstn n documents) in
          match write_errors with
          | [] => (c, Raise e)
          | _ => (c, Ok write_errors)
          end
      end
  end.

End Server.

(** The driver raises [OverflowError] on an integer that does not fit the
    64 bits of a BSON integer. *)
Fixpoint int_overflow (v : value) : bool :=
  match v with
  | VNum z => negb ((- 2 ^ 63 <=? z) && (z <? 2 ^ 63))%Z
  | VList l => existsb int_overflow l
  | VDict d => existsb (fun kv => int_overflow (snd kv)) d
  | _ => false
  end.

(** A driver whose one client-side failure is that overflow, on a batch that
    fits one message: nothing is sent. *)
Definition overflow_error (documents : list dict) : option (nat * exn) :=
  if existsb (fun d => int_overflow (VDict d)) documents
  then Some (0, OverflowError)
  else None.

End Mongo.

(** ** The loader and the run *)

Module Loader.
Import Pandas Pipeline Mongo.

Inductive level : Type := INFO | ERROR.

Record world : Type := mkWorld {
  db : gmap string collection;
  log : list (level * string)
}.

Record response : Type := mkResponse {
  statusCode : Z;
  message : string
}.

(** How reaching the store goes in one load: [MongoClient(...)] can already
    raise (the SRV lookup of the [mongodb+srv] URI), or the first command
    finds no server. *)
Inductive connectivity : Type :=
| Connected
| ClientFails
| ServerUnreachable.

Definition logging (l : level) (msg : string) (w : world) : world :=
  {| db := db w; log := log w ++ [(l, msg)] |}.

Definition get_collection (name : string) (w : world) : collection :=
  default empty_collection (db w !! name).

Definition set_collection (name : string) (c : collection) (w : world) : world :=
  {| db := <[name := c]> (db w); log := log w |}.

(** The response of [upload_to_mongo] when it ends in [except Exception] *)
Definition load_failed : response :=
  {| statusCode := 500; message := "Failed to connect to mongo" |}.

(** [except Exception] of [upload_to_mongo]: [traceback.print_exc()] returns
    [None], which is what gets logged. *)
Definition connect_failed (w : world) : world * option response :=
  (logging ERROR "None" w, Some load_failed).

(** [except BulkWriteError] of [upload_to_mongo] *)
Definition log_write_errors (errs : list write_error) (w : world) : world :=
  fold_left (fun w err => if (code err =? 11000)%Z then w else logging ERROR (errmsg err) w)
            errs w.

Section Run.

Variable check_bracketed_host : string -> bool.
Variable rejects : dict -> option write_error.
Variable client_error : list dict -> option (nat * exn).

(** [upload_to_mongo]. Everything from [MongoClient(...)] on is inside the
    [try]: the info line, the records of the frame, the index, and
    [insert_many(records)], which raises [TypeError] on no records,
    [BulkWriteError] when the bulk write had errors, and another exception
    when the driver cannot send a record. The function returns [None] unless
    it ends in [except Exception]. *)
Definition upload_to_mongo (conn : connectivity) (df : DataFrame)
    (collection_name : string) (w : world) : world * option response :=
  match conn with
  | ClientFails => connect_failed w
  | _ =>
      let w := logging INFO "Connected to Mongo" w in
      match to_json_records df with
      | Raise _ => connect_failed w
      | Ok records =>
          match conn with
          | Connected =>
              match create_index (get_collection collection_name w) with
              | Raise _ => connect_failed w
              | Ok collection =>
                  let w := set_collection collection_name collection w in
                  let '(collection, outcome) :=
                    insert_many rejects client_error collection records in
                  let w := set_collection collection_name collection w in
                  match outcome with
                  | Ok write_errors => (log_write_errors write_errors w, None)
                  | Raise _ => connect_failed w
                  end
              end
          | _ => connect_failed w
          end
      end
  end.

(** The collection a load leaves behind, when it gets to write one. *)
Definition written (conn : connectivity) (df : DataFrame) (c0 : collection)
  : option collection :=
  match conn, to_json_records df with
  | Connected, Ok records =>
      match create_index c0 with
      | Ok c => Some (fst (insert_many rejects client_error c records))
      | Raise _ => None
      end
  | _, _ => None
  end.

(** [process_and_upload_data]; [conn] tells how reaching the store goes in
    each bucket's load. What [upload_to_mongo] returns is dropped. *)
Definition process_and_upload_data (conn : string -> connectivity)
    (data_dict : list dict) (w : world) : result world :=
  let cleaned_data_df := clean_data data_dict in
  '(staging_df, beta_df, production_df) ←
     separate_environments check_bracketed_host cleaned_data_df;
  let w := fst (upload_to_mongo (conn "staging") staging_df "staging" w) in
  let w := fst (upload_to_mongo (conn "production") production_df "production" w) in
  let w := fst (upload_to_mongo (conn "beta") beta_df "beta" w) in
  Ok w.

(** Lines 38 to 45 of [download_to_mongo]: the bodies of the day's objects
    are read, concatenated and turned into one list of records. A listing
    without objects has no ['Contents']. *)
Definition read_sources (sources : list (option (list dict))) : result (list dict) :=
  match sources with
  | [] => Raise (KeyError "Contents")
  | _ =>
      dfs ← mapM read_json sources;
      temp ← concat dfs;
      to_json_records temp
  end.

(** The [try] block of [download_to_mongo] *)
Definition download_body (conn : string -> connectivity)
    (sources : list (option (list dict))) (w : world) : result world :=
  data_dict ← read_sources sources;
  process_and_upload_data conn data_dict w.

(** [download_to_mongo]: the [try] block and its [except Exception] *)
Definition download_to_mongo (conn : string -> connectivity)
    (sources : list (option (list dict))) (w : world) : world * response :=
  match download_body conn sources w with
  | Ok w => (w, {| statusCode := 200; message := "success" |})
  | Raise _ =>
      let w := logging ERROR "Error while handling lambda event" w in
      let w := logging ERROR "None" w in
      (w, {| statusCode := 500; message := "failed" |})
  end.

End Run.

End Loader.

(** ** Notions used to state further properties *)

Module Text.

(** [s.endswith(c)] for a one-character argument *)
Fixpoint ends_with (c : ascii) (s : string) : bool :=
  match s with
  | EmptyString => false
  | String a s' =>
      match s' with
      | EmptyString => Ascii.eqb a c
      | String _ _ => ends_with c s'
      end
  end.

(** Whether [//] occurs in [s] *)
Fixpoint has_double_slash (s : string) : bool :=
  match s with
  | EmptyString => false
  | String a s' =>
      match s' with
      | EmptyString => false
      | String b _ => (Ascii.eqb a "/" && Ascii.eqb b "/") || has_double_slash s'
      end
  end.

(** A printing ASCII character other than the space *)
Definition visible (c : ascii) : bool :=
  let n := N_of_ascii c in ((33 <=? n) && (n <=? 126))%N.

(** A character that can stand in a network location written without
    brackets: visible, and none of the delimiters *)
Definition host_char (c : ascii) : bool :=
  visible c &&
  negb (Ascii.eqb c "/" || Ascii.eqb c "?" || Ascii.eqb c "#"
        || Ascii.eqb c "[" || Ascii.eqb c "]").

(** A well-formed scheme: a letter, then letters, digits and [+-.] *)
Definition is_scheme (s : string) : bool :=
  match s with
  | EmptyString => false
  | String c _ => Url.is_alpha c && Url.all_chars Url.scheme_char s
  end.

(** What may follow the network location: nothing, a path, a query or a
    fragment *)
Definition after_netloc (s : string) : bool :=
  match s with
  | EmptyString => true
  | String c _ => Ascii.eqb c "/" || Ascii.eqb c "?" || Ascii.eqb c "#"
  end.

End Text.

Module Frame.
Import Pandas.

(** Every row has one cell per column. *)
Definition well_formed (df : DataFrame) : Prop :=
  Forall (fun row => length row = length (columns df)) (rows df).

(** No cell of the frame is a dict. *)
Definition flat (df : DataFrame) : Prop :=
  Forall (Forall (fun v => is_dict v = false)) (rows df).

End Frame.

(** ** [scripts/amplitude_to_s3_upload.py]: from the export to the bucket

    The request to the provider and the unpacking of the archive are input
    and output only; what is modelled starts at the project directory as
    [os.listdir] finds it after [extractall]. A directory is a finite map from
    file names to contents, and so is the bucket, from keys to bodies. *)

Module Upload.
Import Loader.

Definition bytes : Type := list Byte.byte.

(** [s.endswith(suffix)] *)
Fixpoint endswith (suffix s : string) : bool :=
  String.eqb s suffix ||
  match s with
  | EmptyString => false
  | String _ s' => endswith suffix s'
  end.

(** [s[:-n]] *)
Definition drop_last (n : nat) (s : string) : string :=
  substring 0 (String.length s - n) s.

(** [f"amplitude/{filename}"] of [upload_files_s3] *)
Definition s3_key (filename : string) : string := "amplitude/" +:+ filename.

(** [f'{folder}{amplitude_data_path}_{date_today}'] of [download_to_mongo] *)
Definition listing_prefix (amplitude_data_path date_today : string) : string :=
  "amplitude/" +:+ amplitude_data_path +:+ "_" +:+ date_today.

(** [s.startswith(prefix)], with what follows the prefix *)
Fixpoint strip_prefix (prefix s : string) : option string :=
  match prefix, s with
  | EmptyString, _ => Some s
  | String a prefix', String b s' =>
      if Ascii.eqb a b then strip_prefix prefix' s' else None
  | String _ _, EmptyString => None
  end.

(** Whether a key matches [list_objects(Prefix=prefix, Delimiter='/')]: it
    starts with the prefix and has no delimiter after it. (The call returns
    the first thousand of the matching keys.) *)
Definition listed (prefix key : string) : bool :=
  match strip_prefix prefix key with
  | Some rest => negb (Str.contains "/" rest)
  | None => false
  end.

Section Machine.

(** [os.listdir]: the names of a directory, in an order of its choosing. *)
Variable listdir : gmap string bytes -> list string.

(** What [shutil.copyfileobj] writes from a gzip stream before it ends, and
    whether it ends without an exception. *)
Variable gunzip : bytes -> bytes * bool.

(** Whether [upload_fileobj] raises for a key. *)
Variable put_fails : string -> bool.

(** The loop of [upload_files_s3] over a listing. The flag tells whether the
    loop ran to its end; an exception leaves the bucket as it is by then. *)
Fixpoint upload_files (listing : list string) (directory s3 : gmap string bytes)
  : gmap string bytes * bool :=
  match listing with
  | [] => (s3, true)
  | filename :: listing' =>
      if negb (endswith ".json" filename) then upload_files listing' directory s3
      else
        match directory !! filename with
        | None => (s3, false)
        | Some data =>
            if put_fails (s3_key filename) then (s3, false)
            else upload_files listing' directory (<[s3_key filename := data]> s3)
        end
  end.

Definition upload_files_s3 (directory s3 : gmap string bytes)
  : gmap string bytes * bool :=
  upload_files (listdir directory) directory s3.

(** The loop of [upload_to_s3] over the project directory: every [.gz] file
    is unpacked into the directory of extracted files under its name without
    the last three characters. The output file is opened, hence emptied,
    before the first byte is read; opening fails when the name is empty. *)
Fixpoint extract_files (listing : list string) (project extracted : gmap string bytes)
  : gmap string bytes * bool :=
  match listing with
  | [] => (extracted, true)
  | filename :: listing' =>
      if negb (endswith ".gz" filename) then extract_files listing' project extracted
      else
        match project !! filename with
        | None => (extracted, false)
        | Some gz =>
            let json_file_name := drop_last 3 filename in
            if String.eqb json_file_name "" then (extracted, false)
            else
              let '(data, complete) := gunzip gz in
              let extracted := <[json_file_name := data]> extracted in
              if complete then extract_files listing' project extracted
              else (extracted, false)
        end
  end.

Record machine : Type := mkMachine {
  extracted_json_data : gmap string bytes;
  bucket : gmap string bytes
}.

(** [upload_to_s3]. [project_directory] is the project directory after the
    archive was fetched and unpacked, or [None] when an exception ended the
    run before the directory was listed. *)
Definition upload_to_s3 (project_directory : option (gmap string bytes)) (m : machine)
  : machine * response :=
  let failed := {| statusCode := 500; message := "Failed" |} in
  match project_directory with
  | None => (m, failed)
  | Some project =>
      let '(extracted, complete) :=
        extract_files (listdir project) project (extracted_json_data m) in
      if complete then
        let '(s3, uploaded) := upload_files_s3 extracted (bucket m) in
        ({| extracted_json_data := extracted; bucket := s3 |},
         if uploaded then {| statusCode := 200; message := "success" |} else failed)
      else ({| extracted_json_data := extracted; bucket := bucket m |}, failed)
  end.

End Machine.

(** One listing order: the one in which the map gives its entries. *)
Definition listdir_entries (directory : gmap string bytes) : list string :=
  map fst (map_to_list directory).

End Upload.

(** * Properties *)

(** ** Strings *)

Module StrFacts.
Import Str.

Ltac all_ascii c := destruct c as [[] [] [] [] [] [] [] []].

Lemma is_upper_to_lower (c : ascii) : is_upper (to_lower c) = false.
Proof. all_ascii c; reflexivity. Qed.

Lemma to_lower_not_dollar (c : ascii) :
  Ascii.eqb c "$" = false -> Ascii.eqb (to_lower c) "$" = false.
Proof. all_ascii c; intros H; solve [reflexivity | discriminate H]. Qed.

Lemma has_upper_lower (s : string) : has_upper (lower s) = false.
Proof.
  induction s as [|c s IH]; simpl; [reflexivity|].
  now rewrite is_upper_to_lower, IH.
Qed.

Lemma has_upper_replace_dot (s : string) :
  has_upper s = false -> has_upper (replace_char "." "_" s) = false.
Proof.
  induction s as [|c s IH]; simpl; [reflexivity|].
  intros [Hc Hs]%orb_false_iff. rewrite (IH Hs), orb_false_r.
  destruct (Ascii.eqb c "."); [reflexivity | exact Hc].
Qed.

Lemma contains_replace_dot (s : string) :
  contains "." (replace_char "." "_" s) = false.
Proof.
  induction s as [|c s IH]; simpl; [reflexivity|].
  rewrite IH, orb_false_r.
  destruct (Ascii.eqb c ".") eqn:E; [reflexivity | exact E].
Qed.

Lemma starts_with_lstrip (c : ascii) (s : string) :
  starts_with c (lstrip c s) = false.
Proof.
  induction s as [|a s IH]; simpl; [reflexivity|].
  destruct (Ascii.eqb a c) eqn:E; [exact IH | simpl; exact E].
Qed.

Lemma starts_with_rstrip (c : ascii) (s : string) :
  starts_with c s = false -> starts_with c (rstrip c s) = false.
Proof.
  destruct s as [|a s]; simpl; [reflexivity|].
  intros E. destruct (rstrip c s); simpl; [rewrite E; simpl|]; exact E.
Qed.

Lemma starts_with_strip (c : ascii) (s : string) :
  starts_with c (strip c s) = false.
Proof. apply starts_with_rstrip, starts_with_lstrip. Qed.

End StrFacts.

(** ** The schema normaliser *)

Module Normalizer.
Import Str StrFacts Pandas Pipeline.

Lemma clean_column_name_canonical (k0 : string) :
  starts_with "$" k0 = false -> canonical (clean_column_name k0).
Proof.
  intros H0. unfold canonical, clean_column_name. repeat split.
  - apply has_upper_replace_dot, has_upper_lower.
  - destruct k0 as [|c k0]; simpl in *; [reflexivity|].
    pose proof (to_lower_not_dollar c H0) as Hl.
    destruct (Ascii.eqb (to_lower c) "."); [reflexivity | exact Hl].
  - apply contains_replace_dot.
Qed.

Lemma select_map {A} (f : A -> bool) (l : list A) :
  select (map f l) l = List.filter f l.
Proof.
  induction l as [|x l IH]; simpl; [reflexivity|].
  destruct (f x); now rewrite IH.
Qed.

Lemma keys_labelled (df : DataFrame) (row : list value) (k : string) :
  In k (keys (labelled df row)) -> In k (columns df).
Proof.
  unfold keys, labelled. intros ((k', v) & <- & Hin)%in_map_iff.
  simpl. eapply in_combine_l, Hin.
Qed.

Lemma columns_clean_data (data_dict : list dict) :
  columns (clean_data data_dict) =
  map clean_column_name
      (List.filter (fun k => negb (mem k cols_to_drop)) (stripped_columns data_dict)).
Proof.
  unfold clean_data, clean_column_names, drop, rename, stripped_columns. simpl.
  now rewrite select_map.
Qed.

Lemma columns_canonical (data_dict : list dict) :
  Forall canonical (columns (clean_data data_dict)).
Proof.
  rewrite columns_clean_data. apply List.Forall_forall.
  intros k (k0 & <- & [Hin _]%filter_In)%in_map_iff.
  apply clean_column_name_canonical.
  unfold stripped_columns, rename in Hin. simpl in Hin.
  apply in_map_iff in Hin as (k1 & <- & _). apply starts_with_strip.
Qed.

(** C5. Every key of every record that [clean_data] returns, and every
    column label of the frame, has no upper-case letter, does not start with
    [$] and has no period. *)
Theorem clean_data_column_invariant (data_dict : list dict) :
  Forall canonical (columns (clean_data data_dict)) /\
  Forall (fun record => Forall canonical (keys record)) (records (clean_data data_dict)).
Proof.
  split; [apply columns_canonical|].
  apply List.Forall_forall. intros record (row & <- & _)%in_map_iff.
  apply List.Forall_forall. intros k Hk%keys_labelled.
  pose proof (columns_canonical data_dict) as Hall.
  rewrite List.Forall_forall in Hall. now apply Hall.
Qed.

(** C6, refuted. The key [App] is not in the exclusion list, so it survives
    the exclusion, and the renaming that follows turns it into [app], which is
    in the list. *)
Lemma exclusion_after_renaming_fails :
  records (clean_data [[("App", VStr "web")]]) = [[("app", VStr "web")]] /\
  In "app" cols_to_drop.
Proof. split; [reflexivity | simpl; tauto]. Qed.

(** C6, amended. Every key of every record that [clean_data] returns is the
    snake-case rewriting of a flattened, [$]-stripped key that is not in the
    exclusion list: the list is matched before the rewriting, not after. *)
Theorem clean_data_exclusion_invariant (data_dict : list dict) :
  Forall (fun record =>
            Forall (fun k => exists k0,
                        In k0 (stripped_columns data_dict) /\
                        ~ In k0 cols_to_drop /\
                        k = clean_column_name k0)
                   (keys record))
         (records (clean_data data_dict)).
Proof.
  apply List.Forall_forall. intros record (row & <- & _)%in_map_iff.
  apply List.Forall_forall. intros k Hk%keys_labelled.
  rewrite columns_clean_data in Hk.
  apply in_map_iff in Hk as (k0 & <- & [Hin Hkeep]%filter_In).
  exists k0. repeat split; [exact Hin|].
  intros Hdrop. apply negb_true_iff in Hkeep.
  assert (mem k0 cols_to_drop = true) as Hmem; [|congruence].
  apply existsb_exists. exists k0. split; [exact Hdrop | apply String.eqb_refl].
Qed.

End Normalizer.

(** ** The environment classifier *)

Module Classifier.
Import Str Pandas Pipeline.

Lemma mem_In (x : string) (l : list string) : mem x l = true <-> In x l.
Proof.
  unfold mem. rewrite existsb_exists. split.
  - intros (y & Hy & ->%String.eqb_eq). exact Hy.
  - intros Hx. exists x. split; [exact Hx | apply String.eqb_refl].
Qed.

Lemma isin_disjoint (l1 l2 : list string) (v : value) :
  disjoint l1 l2 = true -> isin l1 v = true -> isin l2 v = true -> False.
Proof.
  unfold disjoint. rewrite forallb_forall. intros Hdis H1 H2.
  destruct v; simpl in *; try discriminate.
  apply mem_In in H1. specialize (Hdis _ H1).
  rewrite H2 in Hdis. discriminate.
Qed.

Lemma domain_in_rows (domains : list string) (df out : DataFrame) (row : list value) :
  domain_in domains df = Ok out -> In row (rows out) ->
  In row (rows df) /\
  isin domains (default VNull (dict_get "domain" (labelled df row))) = true.
Proof.
  unfold domain_in. case_bool_decide; [|discriminate].
  intros [= <-]. simpl. now rewrite filter_In.
Qed.

Lemma getitem_missing (row : dict) (key : string) :
  ~ In key (keys row) -> getitem row key = Raise (KeyError key).
Proof.
  intros Hno. unfold getitem.
  replace (List.filter _ row) with (@nil (string * value)); [reflexivity|].
  symmetry. induction row as [|[k v] row IH]; [reflexivity|].
  cbn [List.filter fst].
  destruct (String.eqb_spec key k) as [->|Hne].
  - exfalso. apply Hno. now left.
  - apply IH. intros Hin. apply Hno. now right.
Qed.

Section Buckets.

Variable check_bracketed_host : string -> bool.

(** When [create_domain] returns, the new column holds the domain of every
    row. *)
Lemma create_domain_Ok (df df' : DataFrame) :
  create_domain check_bracketed_host df = Ok df' ->
  exists domain,
    mapM (apply_domain check_bracketed_host) (records df) = Ok domain /\
    df' = setitem "domain" domain df.
Proof.
  unfold create_domain, records.
  destruct (rows df) as [|row rows'] eqn:Er.
  - intros H. exists []. split; [reflexivity|].
    destruct (apply_domain _ _); [congruence|].
    destruct (columns df) as [|k [|k' ks]]; congruence.
  - destruct (columns df) as [|k ks] eqn:Ec; [discriminate|].
    destruct (mapM _ _) as [domain|e]; [|discriminate].
    intros [= <-]. now exists domain.
Qed.

(** C7. When the three domain lists are pairwise disjoint, no row of the
    classified frame is in two of the bucket frames. *)
Theorem buckets_disjoint (staging beta production : list string)
    (df staging_df beta_df production_df : DataFrame) :
  disjoint staging beta = true ->
  disjoint staging production = true ->
  disjoint beta production = true ->
  separate_by check_bracketed_host staging beta production df
    = Ok (staging_df, beta_df, production_df) ->
  forall row : list value,
    ~ (In row (rows staging_df) /\ In row (rows beta_df)) /\
    ~ (In row (rows staging_df) /\ In row (rows production_df)) /\
    ~ (In row (rows beta_df) /\ In row (rows production_df)).
Proof.
  intros Hsb Hsp Hbp Hsep row. unfold separate_by in Hsep.
  destruct (create_domain check_bracketed_host df) as [df'|e]; [|discriminate].
  simpl in Hsep.
  destruct (domain_in staging df') as [s|e] eqn:Es; [|discriminate].
  destruct (domain_in beta df') as [b|e] eqn:Eb; [|discriminate].
  destruct (domain_in production df') as [p|e] eqn:Ep; [|discriminate].
  simpl in Hsep. injection Hsep as <- <- <-.
  repeat split; intros [H1 H2].
  - apply (domain_in_rows _ _ _ _ Es) in H1 as [_ H1].
    apply (domain_in_rows _ _ _ _ Eb) in H2 as [_ H2].
    exact (isin_disjoint _ _ _ Hsb H1 H2).
  - apply (domain_in_rows _ _ _ _ Es) in H1 as [_ H1].
    apply (domain_in_rows _ _ _ _ Ep) in H2 as [_ H2].
    exact (isin_disjoint _ _ _ Hsp H1 H2).
  - apply (domain_in_rows _ _ _ _ Eb) in H1 as [_ H1].
    apply (domain_in_rows _ _ _ _ Ep) in H2 as [_ H2].
    exact (isin_disjoint _ _ _ Hbp H1 H2).
Qed.

(** A row without the URL label makes [apply_domain] raise. *)
Lemma apply_domain_KeyError (row : dict) :
  ~ In "event_properties_url" (keys row) ->
  apply_domain check_bracketed_host row = Raise (KeyError "event_properties_url").
Proof.
  intros Hno. unfold apply_domain.
  now rewrite (getitem_missing row "event_properties_url" Hno).
Qed.

(** A URL cell that is no string gives the domain [None], which is in no
    domain list. *)
Lemma apply_domain_non_string (row : dict) (v : value) :
  getitem row "event_properties_url" = Ok (Scalar v) ->
  (forall s, v <> VStr s) ->
  apply_domain check_bracketed_host row = Ok VNull /\
  forall domains, isin domains VNull = false.
Proof.
  intros Hget Hv. unfold apply_domain. rewrite Hget. simpl.
  split; [|reflexivity].
  destruct v; try reflexivity. now destruct (Hv s).
Qed.

(** C8. The record of the scenario is normalised to the keys [event_type]
    and [event_properties_url], gets the domain [studio.masterwizr.com] and
    is the one row of the production frame. *)
Theorem scenario_production_record :
  let raw := [("$event_type", VStr "click");
              ("event_properties",
               VDict [("url", VStr "https://studio.masterwizr.com/x")])] in
  let labels := ["event_type"; "event_properties_url"; "domain"] in
  records (clean_data [raw])
    = [[("event_type", VStr "click");
        ("event_properties_url", VStr "https://studio.masterwizr.com/x")]] /\
  separate_environments check_bracketed_host (clean_data [raw])
    = Ok ({| columns := labels; rows := [] |},
          {| columns := labels; rows := [] |},
          {| columns := labels;
             rows := [[VStr "click"; VStr "https://studio.masterwizr.com/x";
                       VStr "studio.masterwizr.com"]] |}) /\
  In "studio.masterwizr.com" PRODUCTION_DOMAINS.
Proof. repeat split. simpl. tauto. Qed.

(** The second scenario: a URL field that holds a number. *)
Example scenario_non_string_url :
  let raw := [("event_properties", VDict [("url", VNum 123)])] in
  let labels := ["event_properties_url"; "domain"] in
  separate_environments check_bracketed_host (clean_data [raw])
    = Ok ({| columns := labels; rows := [] |},
          {| columns := labels; rows := [] |},
          {| columns := labels; rows := [] |}).
Proof. reflexivity. Qed.

(** C4, the code against the claim. In a batch where no record has the URL
    field the frame has no such column, and classification raises [KeyError]
    instead of giving the domain [None]. *)
Theorem missing_url_column_raises :
  let raw := [("$insert_id", VStr "e1"); ("event_type", VStr "click")] in
  records (clean_data [raw]) = [[("insert_id", VStr "e1"); ("event_type", VStr "click")]] /\
  apply_domain check_bracketed_host [("insert_id", VStr "e1"); ("event_type", VStr "click")]
    = Raise (KeyError "event_properties_url") /\
  separate_environments check_bracketed_host (clean_data [raw])
    = Raise (KeyError "event_properties_url").
Proof. repeat split. Qed.

End Buckets.

(** The configured lists are pairwise disjoint. *)
Lemma configured_domains_disjoint :
  disjoint STAGING_DOMAINS BETA_DOMAINS = true /\
  disjoint STAGING_DOMAINS PRODUCTION_DOMAINS = true /\
  disjoint BETA_DOMAINS PRODUCTION_DOMAINS = true.
Proof. repeat split. Qed.

(** C7, at the configured lists and the frame of the production scenario. *)
Lemma buckets_disjoint_witness :
  let labels := ["event_type"; "event_properties_url"; "domain"] in
  let row := [VStr "click"; VStr "https://studio.masterwizr.com/x";
              VStr "studio.masterwizr.com"] in
  let df := {| columns := ["event_type"; "event_properties_url"];
               rows := [[VStr "click"; VStr "https://studio.masterwizr.com/x"]] |} in
  let none := {| columns := labels; rows := [] |} in
  let production_df := {| columns := labels; rows := [row] |} in
  disjoint STAGING_DOMAINS BETA_DOMAINS = true /\
  disjoint STAGING_DOMAINS PRODUCTION_DOMAINS = true /\
  disjoint BETA_DOMAINS PRODUCTION_DOMAINS = true /\
  separate_by (fun _ => true) STAGING_DOMAINS BETA_DOMAINS PRODUCTION_DOMAINS df
    = Ok (none, none, production_df) /\
  (~ (In row (rows none) /\ In row (rows none)) /\
   ~ (In row (rows none) /\ In row (rows production_df)) /\
   ~ (In row (rows none) /\ In row (rows production_df))).
Proof.
  intros labels row df none production_df.
  split; [reflexivity|]. split; [reflexivity|]. split; [reflexivity|].
  split; [reflexivity|].
  apply (buckets_disjoint (fun _ => true) STAGING_DOMAINS BETA_DOMAINS
           PRODUCTION_DOMAINS df none none production_df); reflexivity.
Defined.

End Classifier.

(** ** The document store *)

Module MongoFacts.
Import Mongo.

Lemma value_eqb_refl : forall v : value, value_eqb v v = true.
Proof.
  fix IH 1. intros [| |b|z|s|l|d]; simpl; try reflexivity.
  - apply Bool.eqb_reflx.
  - apply Z.eqb_refl.
  - apply String.eqb_refl.
  - revert l. fix IHl 1. intros [|x l]; [reflexivity|].
    now rewrite IH, IHl.
  - revert d. fix IHd 1. intros [|[k x] d]; [reflexivity|].
    now rewrite String.eqb_refl, IH, IHd.
Qed.

Lemma duplicate_key_member (d : dict) (ds : list dict) :
  In d ds -> duplicate_key d ds = true.
Proof.
  intros Hin. apply existsb_exists. exists d. split; [exact Hin|].
  apply value_eqb_refl.
Qed.

Lemma create_index_unique (c0 c : collection) :
  create_index c0 = Ok c ->
  unique_insert_id c = true /\ docs c = docs c0 /\ create_index c = Ok c.
Proof.
  unfold create_index. destruct (unique_insert_id c0) eqn:E.
  - intros [= <-]. now rewrite E.
  - destruct (distinct_keys (docs c0)); [|discriminate].
    intros [= <-]. simpl. auto.
Qed.

Section Server.

Variable rejects : dict -> option write_error.
Variable client_error : list dict -> option (nat * exn).

Lemma insert_one_inl (c c' : collection) (d : dict) :
  insert_one rejects c d = inl c' ->
  rejects d = None /\ docs c' = docs c ++ [d] /\
  unique_insert_id c' = unique_insert_id c.
Proof.
  unfold insert_one. destruct (rejects d); [discriminate|].
  destruct (unique_insert_id c && duplicate_key d (docs c)); [discriminate|].
  intros [= <-]. simpl. auto.
Qed.

(** An ordered bulk write only appends, and keeps the index. *)
Lemma bulk_insert_appends (ds : list dict) (c : collection) :
  unique_insert_id (fst (bulk_insert rejects true c ds)) = unique_insert_id c /\
  exists l, docs (fst (bulk_insert rejects true c ds)) = docs c ++ l.
Proof.
  revert c. induction ds as [|d ds IH]; intros c; simpl.
  - split; [reflexivity|]. exists []. now rewrite app_nil_r.
  - destruct (insert_one rejects c d) as [c'|e] eqn:E; simpl.
    + apply insert_one_inl in E as (_ & Hd & Hu).
      destruct (IH c') as (Hu' & l & Hl). split; [congruence|].
      exists (d :: l). rewrite Hl, Hd, <- app_assoc. reflexivity.
    + split; [reflexivity|]. exists []. now rewrite app_nil_r.
Qed.

(** What the second of two ordered bulk writes of the same documents meets:
    its first document is refused again, or is a duplicate by now. *)
Lemma bulk_insert_again (d : dict) (ds : list dict) (c : collection) :
  unique_insert_id c = true ->
  let c1 := fst (bulk_insert rejects true c (d :: ds)) in
  bulk_insert rejects true c1 (d :: ds)
  = (c1, [match rejects d with Some e => e | None => duplicate_key_error end]).
Proof.
  intros Hu. simpl.
  destruct (insert_one rejects c d) as [c'|e] eqn:E.
  - apply insert_one_inl in E as (Hr & Hd & Hu').
    destruct (bulk_insert_appends ds c') as (Hu1 & l & Hl).
    unfold insert_one. rewrite Hr, Hu1, Hu', Hu, Hl, Hd.
    rewrite duplicate_key_member; [reflexivity|].
    rewrite <- app_assoc. apply in_or_app. right. now left.
  - simpl. rewrite E. unfold insert_one in E.
    destruct (rejects d); [congruence|].
    destruct (unique_insert_id c && duplicate_key d (docs c)); [congruence|discriminate].
Qed.

(** The documents of a batch that [insert_many] gets to send. *)
Lemma insert_many_sent (ds : list dict) (c : collection) :
  fst (insert_many rejects client_error c ds)
  = fst (bulk_insert rejects true c
           match client_error ds with
           | Some (n, _) => firstn n ds
           | None => ds
           end).
Proof.
  unfold insert_many. destruct ds as [|d ds].
  - destruct (client_error []) as [[n e]|]; [now rewrite firstn_nil | reflexivity].
  - destruct (client_error (d :: ds)) as [[n e]|].
    + destruct (bulk_insert rejects true c (firstn n (d :: ds))) as [c' errs].
      now destruct errs.
    + now destruct (bulk_insert rejects true c (d :: ds)) as [c' errs].
Qed.

(** When the driver can send every document, [insert_many] is the ordered
    bulk write. *)
Lemma insert_many_bulk (d : dict) (ds : list dict) (c : collection) :
  client_error (d :: ds) = None ->
  insert_many rejects client_error c (d :: ds)
  = (fst (bulk_insert rejects true c (d :: ds)),
     Ok (snd (bulk_insert rejects true c (d :: ds)))).
Proof.
  intros Hsend. unfold insert_many. rewrite Hsend.
  now destruct (bulk_insert rejects true c (d :: ds)) as [c' errs].
Qed.

Lemma insert_many_appends (ds : list dict) (c : collection) :
  unique_insert_id (fst (insert_many rejects client_error c ds)) = unique_insert_id c /\
  exists l, docs (fst (insert_many rejects client_error c ds)) = docs c ++ l.
Proof. rewrite insert_many_sent. apply bulk_insert_appends. Qed.

(** The second of two calls of [insert_many] on the same documents adds
    nothing. *)
Lemma insert_many_again (ds : list dict) (c : collection) :
  unique_insert_id c = true ->
  let c1 := fst (insert_many rejects client_error c ds) in
  fst (insert_many rejects client_error c1 ds) = c1.
Proof.
  intros Hu c1. subst c1. rewrite !insert_many_sent.
  destruct (match client_error ds with
            | Some (n, _) => firstn n ds
            | None => ds
            end) as [|d l]; [reflexivity|].
  now rewrite (bulk_insert_again d l c Hu).
Qed.

End Server.

End MongoFacts.

(** ** The loader *)

Module LoaderFacts.
Import Pandas Pipeline Mongo MongoFacts Loader.

Lemma db_log_write_errors (errs : list write_error) (w : world) :
  db (log_write_errors errs w) = db w.
Proof.
  unfold log_write_errors. revert w.
  induction errs as [|e errs IH]; intros w; simpl; [reflexivity|].
  rewrite IH. now destruct (code e =? 11000)%Z.
Qed.

(** The handler of [BulkWriteError] logs the message of every write error
    but the duplicate-key ones. *)
Lemma log_log_write_errors (errs : list write_error) (w : world) :
  log (log_write_errors errs w)
  = log w ++ map (fun e => (ERROR, errmsg e))
                 (List.filter (fun e => negb (code e =? 11000)%Z) errs).
Proof.
  unfold log_write_errors. revert w.
  induction errs as [|e errs IH]; intros w; simpl; [now rewrite app_nil_r|].
  rewrite IH. destruct (code e =? 11000)%Z; simpl; [reflexivity|].
  now rewrite <- app_assoc.
Qed.

Lemma get_collection_set (name : string) (c : collection) (w : world) :
  get_collection name (set_collection name c w) = c.
Proof. unfold get_collection, set_collection. simpl. now rewrite lookup_insert_eq. Qed.

Lemma get_collection_db (name : string) (w w' : world) :
  db w !! name = db w' !! name -> get_collection name w = get_collection name w'.
Proof. unfold get_collection. now intros ->. Qed.

Section Run.

Variable rejects : dict -> option write_error.
Variable client_error : list dict -> option (nat * exn).

Lemma db_upload_to_mongo (conn : connectivity) (df : DataFrame) (name : string) (w : world) :
  db (fst (upload_to_mongo rejects client_error conn df name w))
  = match written rejects client_error conn df (get_collection name w) with
    | Some c => <[name := c]> (db w)
    | None => db w
    end.
Proof.
  unfold upload_to_mongo, written.
  destruct conn; try reflexivity; destruct (to_json_records df) as [records|e];
    try reflexivity.
  change (get_collection name (logging INFO "Connected to Mongo" w))
    with (get_collection name w).
  destruct (create_index (get_collection name w)) as [c|e]; [|reflexivity].
  destruct (insert_many rejects client_error c records) as [c2 [errs|e]]; cbn [fst].
  - rewrite db_log_write_errors. simpl. apply insert_insert_eq.
  - simpl. apply insert_insert_eq.
Qed.

(** A load touches no collection but its own. *)
Lemma upload_to_mongo_other (conn : connectivity) (df : DataFrame)
    (name name' : string) (w : world) :
  name <> name' ->
  db (fst (upload_to_mongo rejects client_error conn df name w)) !! name' = db w !! name'.
Proof.
  intros Hne. rewrite db_upload_to_mongo.
  destruct (written rejects client_error conn df (get_collection name w)); [|reflexivity].
  now rewrite lookup_insert_ne.
Qed.


Lemma written_again (df : DataFrame) (c0 c1 : collection) :
  written rejects client_error Connected df c0 = Some c1 -> written rejects client_error Connected df c1 = Some c1.
Proof.
  unfold written. destruct (to_json_records df) as [records|e]; [|discriminate].
  destruct (create_index c0) as [c|e] eqn:Ec; [|discriminate].
  apply create_index_unique in Ec as (Hu & _ & Hc).
  intros Heq.
  assert (c1 = fst (insert_many rejects client_error c records)) as -> by congruence.
  destruct (insert_many_appends rejects client_error records c) as (Hu1 & _).
  unfold create_index at 1. rewrite Hu1, Hu.
  now rewrite (insert_many_again rejects client_error records c Hu).
Qed.


(** The load of a frame with records, once the index is there. *)
Lemma upload_to_mongo_bulk (df : DataFrame) (name : string) (w : world)
    (d : dict) (ds : list dict) (c : collection) :
  to_json_records df = Ok (d :: ds) ->
  client_error (d :: ds) = None ->
  create_index (get_collection name w) = Ok c ->
  let bulk := bulk_insert rejects true c (d :: ds) in
  upload_to_mongo rejects client_error Connected df name w
  = (log_write_errors (snd bulk)
       (set_collection name (fst bulk)
          (set_collection name c (logging INFO "Connected to Mongo" w))),
     None).
Proof.
  intros Hrec Hsend Hidx bulk. unfold upload_to_mongo. rewrite Hrec.
  change (get_collection name (logging INFO "Connected to Mongo" w))
    with (get_collection name w).
  rewrite Hidx. subst bulk.
  now rewrite (insert_many_bulk rejects client_error d ds c Hsend).
Qed.

(** C1. A second load of the same frame into the same collection leaves the
    store as the first load left it, however the second connection goes.
    When the driver can send every record of the batch and the store refuses
    them for no other reason than the unique index, the second load ends
    without a failure value and logs nothing but the connection line: the
    duplicate rejection is absorbed. *)
Theorem upload_twice_same_store (df : DataFrame) (name : string) (w : world) :
  let w1 := fst (upload_to_mongo rejects client_error Connected df name w) in
  (forall conn2, db (fst (upload_to_mongo rejects client_error conn2 df name w1)) = db w1) /\
  (forall records c,
      to_json_records df = Ok records ->
      records <> [] ->
      client_error records = None ->
      Forall (fun d => rejects d = None) records ->
      create_index (get_collection name w) = Ok c ->
      snd (upload_to_mongo rejects client_error Connected df name w1) = None /\
      log (fst (upload_to_mongo rejects client_error Connected df name w1))
      = log w1 ++ [(INFO, "Connected to Mongo")]).
Proof.
  intros w1. split.
  - intros conn2. rewrite db_upload_to_mongo. subst w1.
    pose proof (db_upload_to_mongo Connected df name w) as Hdb.
    destruct (written rejects client_error Connected df (get_collection name w)) as [c1|] eqn:E1.
    + assert (get_collection name (fst (upload_to_mongo rejects client_error Connected df name w)) = c1)
        as Hget.
      { unfold get_collection. now rewrite Hdb, lookup_insert_eq. }
      rewrite Hget. destruct conn2; try reflexivity.
      rewrite (written_again df _ c1 E1), Hdb. apply insert_insert_eq.
    + assert (get_collection name (fst (upload_to_mongo rejects client_error Connected df name w))
              = get_collection name w) as Hget.
      { apply get_collection_db. now rewrite Hdb. }
      rewrite Hget. destruct conn2; try reflexivity. now rewrite E1.
  - intros records c Hrec Hne Hsend Hacc Hidx.
    destruct records as [|d ds]; [congruence|].
    apply Forall_cons in Hacc as [Hd _].
    pose proof (upload_to_mongo_bulk df name w d ds c Hrec Hsend Hidx) as H1.
    cbv zeta in H1.
    apply create_index_unique in Hidx as (Hu & _ & _).
    set (c1 := fst (bulk_insert rejects true c (d :: ds))) in *.
    assert (get_collection name w1 = c1) as Hget.
    { subst w1. rewrite H1. cbn [fst].
      rewrite <- (get_collection_set name c1
                    (set_collection name c (logging INFO "Connected to Mongo" w))) at 2.
      apply get_collection_db. now rewrite db_log_write_errors. }
    assert (create_index (get_collection name w1) = Ok c1) as Hidx1.
    { rewrite Hget. unfold create_index.
      destruct (bulk_insert_appends rejects (d :: ds) c) as (Hu1 & _).
      fold c1 in Hu1. now rewrite Hu1, Hu. }
    rewrite (upload_to_mongo_bulk df name w1 d ds c1 Hrec Hsend Hidx1). cbv zeta.
    subst c1. rewrite (bulk_insert_again rejects d ds c Hu), Hd.
    split; reflexivity.
Qed.





End Run.

(** C1, at a batch of two records loaded into an empty store. *)
Lemma upload_twice_same_store_witness :
  let accept := fun _ : dict => @None write_error in
  let df := {| columns := ["insert_id"]; rows := [[VStr "a"]; [VStr "b"]] |} in
  let records := [[("insert_id", VStr "a")]; [("insert_id", VStr "b")]] in
  let c := {| docs := []; unique_insert_id := true |} in
  let w := {| db := ∅; log := [] |} in
  let w1 := fst (upload_to_mongo accept (fun _ => None) Connected df "production" w) in
  to_json_records df = Ok records /\
  records <> [] /\
  Forall (fun d => accept d = None) records /\
  create_index (get_collection "production" w) = Ok c /\
  (snd (upload_to_mongo accept (fun _ => None) Connected df "production" w1) = None /\
   log (fst (upload_to_mongo accept (fun _ => None) Connected df "production" w1))
   = log w1 ++ [(INFO, "Connected to Mongo")]).
Proof.
  intros accept df records c w w1.
  assert (to_json_records df = Ok records) as Hrec by reflexivity.
  assert (records <> []) as Hne by discriminate.
  assert (Forall (fun d => accept d = None) records) as Hacc
    by (repeat constructor).
  assert (create_index (get_collection "production" w) = Ok c) as Hidx
    by reflexivity.
  repeat (split; [assumption|]).
  exact (proj2 (upload_twice_same_store accept (fun _ => None) df "production" w)
           records c Hrec Hne eq_refl Hacc Hidx).
Defined.

(** C2, the code against the claim. The batch holds a record that is in the
    collection already and a new one behind it. [insert_many] is called
    without [ordered=False], the write stops at the duplicate, and the new
    record is not inserted, although nothing is logged as an error and the
    loader returns no failure. An unordered write would insert it. *)
Theorem duplicate_stops_the_batch :
  let accept := fun _ : dict => @None write_error in
  let a := [("insert_id", VStr "a")] in
  let b := [("insert_id", VStr "b")] in
  let first := {| columns := ["insert_id"]; rows := [[VStr "a"]] |} in
  let second := {| columns := ["insert_id"]; rows := [[VStr "a"]; [VStr "b"]] |} in
  let w1 := fst (upload_to_mongo accept (fun _ => None) Connected first "production"
                   {| db := ∅; log := [] |}) in
  let run := upload_to_mongo accept (fun _ => None) Connected second "production" w1 in
  get_collection "production" w1 = {| docs := [a]; unique_insert_id := true |} /\
  get_collection "production" (fst run) = {| docs := [a]; unique_insert_id := true |} /\
  snd run = None /\
  log (fst run) = log w1 ++ [(INFO, "Connected to Mongo")] /\
  bulk_insert accept true (get_collection "production" w1) [a; b]
    = ({| docs := [a]; unique_insert_id := true |}, [duplicate_key_error]) /\
  bulk_insert accept false (get_collection "production" w1) [a; b]
    = ({| docs := [a; b]; unique_insert_id := true |}, [duplicate_key_error]).
Proof. vm_compute. repeat split. Qed.

End LoaderFacts.

(** ** The run *)

Module RunFacts.
Import Pandas Pipeline Mongo MongoFacts Loader LoaderFacts.

Lemma add_labels_NoDup (labels seen : list string) :
  NoDup seen -> NoDup (add_labels seen labels).
Proof.
  unfold add_labels. revert seen.
  induction labels as [|k labels IH]; intros seen Hseen; simpl; [exact Hseen|].
  apply IH. destruct (Str.mem k seen) eqn:E; [exact Hseen|].
  apply NoDup_app. split; [exact Hseen|]. split; [|apply NoDup_singleton].
  intros x Hx ->%list_elem_of_singleton.
  apply list_elem_of_In, Classifier.mem_In in Hx. congruence.
Qed.

Lemma union_labels_NoDup (ls : list (list string)) : NoDup (union_labels ls).
Proof.
  unfold union_labels. generalize (@NoDup_nil_2 string).
  generalize (@nil string) as seen.
  induction ls as [|l ls IH]; intros seen Hseen; simpl; [exact Hseen|].
  apply IH, add_labels_NoDup, Hseen.
Qed.

Lemma mapM_read_json_parsed (sources : list (option (list dict))) :
  Forall (fun body => body <> None) sources ->
  exists dfs, mapM read_json sources = Ok dfs /\ length dfs = length sources.
Proof.
  induction 1 as [|body sources Hbody _ (dfs & IH & Hlen)].
  - exists []. split; reflexivity.
  - destruct body as [lines|]; [|congruence].
    exists (from_records lines :: dfs). simpl. rewrite IH. simpl.
    split; [reflexivity | now rewrite Hlen].
Qed.

Lemma mapM_read_json_unparsable (sources : list (option (list dict))) :
  In None sources ->
  mapM read_json sources = Raise (ValueError "Expected object or value").
Proof.
  induction sources as [|body sources IH]; intros Hin; [destruct Hin|].
  destruct body as [lines|]; [|reflexivity].
  destruct Hin as [Hin|Hin]; [discriminate|].
  simpl. now rewrite (IH Hin).
Qed.

(** Reading succeeds when there is at least one body and every body parses. *)
Lemma read_sources_parsed (sources : list (option (list dict))) :
  sources <> [] ->
  Forall (fun body => body <> None) sources ->
  exists data_dict, read_sources sources = Ok data_dict.
Proof.
  intros Hne Hall. destruct (mapM_read_json_parsed sources Hall) as (dfs & Hdfs & Hlen).
  unfold read_sources. destruct sources as [|body sources]; [congruence|].
  rewrite Hdfs. destruct dfs as [|df dfs]; [discriminate|].
  simpl. unfold to_json_records. simpl.
  rewrite bool_decide_eq_true_2; [eexists; reflexivity|].
  apply (union_labels_NoDup (columns df :: map columns dfs)).
Qed.

Section Run.

Variable check_bracketed_host : string -> bool.
Variable rejects : dict -> option write_error.
Variable client_error : list dict -> option (nat * exn).


(** C9. When one of the day's bodies is not line-delimited JSON the run
    returns the failure value, the store is as it was, and the log has the
    two entries of the handler and none of a load. *)
Theorem unparsable_source_aborts_run (conn : string -> connectivity)
    (sources : list (option (list dict))) (w : world) :
  In None sources ->
  read_sources sources = Raise (ValueError "Expected object or value") /\
  download_to_mongo check_bracketed_host rejects client_error conn sources w
  = ({| db := db w;
        log := log w ++ [(ERROR, "Error while handling lambda event"); (ERROR, "None")] |},
     {| statusCode := 500; message := "failed" |}).
Proof.
  intros Hin. pose proof (mapM_read_json_unparsable sources Hin) as Hread.
  assert (read_sources sources = Raise (ValueError "Expected object or value")) as Hsrc.
  { unfold read_sources. destruct sources; [destruct Hin|]. now rewrite Hread. }
  split; [exact Hsrc|].
  unfold download_to_mongo, download_body. rewrite Hsrc. simpl.
  unfold logging. simpl. now rewrite <- app_assoc.
Qed.


End Run.



(** C9, at a listing of two objects, the second of which does not parse. *)
Lemma unparsable_source_aborts_run_witness :
  let sources := [Some [[("$insert_id", VStr "e1")]]; None] in
  let w := {| db := ∅; log := [] |} in
  In None sources /\
  read_sources sources = Raise (ValueError "Expected object or value") /\
  download_to_mongo (fun _ => true) (fun _ => None) (fun _ => None) (fun _ => Connected) sources w
  = ({| db := db w;
        log := log w ++ [(ERROR, "Error while handling lambda event"); (ERROR, "None")] |},
     {| statusCode := 500; message := "failed" |}).
Proof.
  intros sources w.
  assert (In None sources) as Hin by (right; left; reflexivity).
  split; [exact Hin|].
  exact (unparsable_source_aborts_run (fun _ => true) (fun _ => None) (fun _ => None)
           (fun _ => Connected) sources w Hin).
Defined.



End RunFacts.

(** ** The normaliser: shape of the frame and of its labels *)

Module Shape.
Import Str StrFacts Text Pandas Pipeline Frame Normalizer.

Lemma underscore_before_upper_lower (s : string) :
  has_upper s = false -> underscore_before_upper s = s.
Proof.
  induction s as [|c s IH]; simpl; [reflexivity|].
  intros [Hc Hs]%orb_false_iff. now rewrite Hc, (IH Hs).
Qed.

Lemma lower_lower (s : string) : has_upper s = false -> lower s = s.
Proof.
  induction s as [|c s IH]; simpl; [reflexivity|].
  intros [Hc Hs]%orb_false_iff. unfold to_lower. now rewrite Hc, (IH Hs).
Qed.

Lemma replace_char_absent (a b : ascii) (s : string) :
  contains a s = false -> replace_char a b s = s.
Proof.
  induction s as [|c s IH]; simpl; [reflexivity|].
  intros [Hc Hs]%orb_false_iff. now rewrite Hc, (IH Hs).
Qed.

(** A label without upper-case letter and without period is left as it is. *)
Lemma clean_column_name_fixed (k : string) :
  has_upper k = false -> contains "." k = false -> clean_column_name k = k.
Proof.
  intros Hu Hp. unfold clean_column_name.
  assert (pattern_sub k = k) as ->.
  { destruct k as [|c k]; [reflexivity|]. simpl in *.
    apply orb_false_iff in Hu as [_ Hu]. now rewrite underscore_before_upper_lower. }
  rewrite (lower_lower k Hu). now apply replace_char_absent.
Qed.

Lemma clean_column_name_again (k : string) :
  clean_column_name (clean_column_name k) = clean_column_name k.
Proof.
  apply clean_column_name_fixed; unfold clean_column_name.
  - apply has_upper_replace_dot, has_upper_lower.
  - apply contains_replace_dot.
Qed.

(** X1. [clean_column_names] is idempotent: renaming a frame that was
    renamed changes no label and no row. *)
Theorem clean_column_names_idempotent (df : DataFrame) :
  clean_column_names (clean_column_names df) = clean_column_names df.
Proof.
  unfold clean_column_names, rename. simpl. f_equal.
  rewrite map_map. apply map_ext. intros k. apply clean_column_name_again.
Qed.

Lemma ends_with_rstrip (c : ascii) (s : string) : ends_with c (rstrip c s) = false.
Proof.
  induction s as [|a s IH]; simpl; [reflexivity|].
  destruct (rstrip c s) as [|b r] eqn:E.
  - destruct (Ascii.eqb a c) eqn:Ea; simpl; [reflexivity | exact Ea].
  - exact IH.
Qed.

Lemma ends_with_underscore_before_upper (c : ascii) (s : string) :
  ends_with c (underscore_before_upper s) = ends_with c s.
Proof.
  induction s as [|a s IH]; [reflexivity|].
  assert (ends_with c (String a (underscore_before_upper s)) = ends_with c (String a s)) as H.
  { simpl. destruct s as [|b s]; [reflexivity|]. rewrite IH.
    simpl. now destruct (is_upper b). }
  simpl underscore_before_upper. destruct (is_upper a); exact H.
Qed.

Lemma ends_with_pattern_sub (c : ascii) (s : string) :
  ends_with c (pattern_sub s) = ends_with c s.
Proof.
  destruct s as [|a s]; [reflexivity|]. simpl.
  destruct s as [|b s]; [reflexivity|].
  rewrite ends_with_underscore_before_upper. simpl. now destruct (is_upper b).
Qed.

Lemma ends_with_lower (s : string) :
  ends_with "$" s = false -> ends_with "$" (lower s) = false.
Proof.
  induction s as [|a s IH]; [reflexivity|]. simpl.
  destruct s as [|b s]; simpl in *; [apply to_lower_not_dollar | exact IH].
Qed.

Lemma ends_with_replace_dot (s : string) :
  ends_with "$" s = false -> ends_with "$" (replace_char "." "_" s) = false.
Proof.
  induction s as [|a s IH]; [reflexivity|]. simpl.
  destruct s as [|b s]; simpl in *; [|exact IH].
  intros Ha. destruct (Ascii.eqb a "."); [reflexivity | exact Ha].
Qed.

(** X2. [strip('$')] takes the dollar signs off both ends of a label, so no
    label of the frame that [clean_data] returns ends with [$] either. *)
Theorem clean_data_no_dollar_at_end (data_dict : list dict) :
  Forall (fun k => ends_with "$" k = false) (columns (clean_data data_dict)).
Proof.
  rewrite columns_clean_data. apply List.Forall_forall.
  intros k (k0 & <- & [Hin _]%filter_In)%in_map_iff.
  unfold stripped_columns, rename in Hin. simpl in Hin.
  apply in_map_iff in Hin as (k1 & <- & _).
  unfold clean_column_name.
  apply ends_with_replace_dot, ends_with_lower.
  rewrite ends_with_pattern_sub. apply ends_with_rstrip.
Qed.

Lemma select_length {A B} (mask : list bool) (l : list A) (l' : list B) :
  length l = length l' -> length (select mask l) = length (select mask l').
Proof.
  revert l l'. induction mask as [|b mask IH]; intros [|x l] [|y l'] Hlen;
    simpl in *; try reflexivity; try discriminate.
  injection Hlen as Hlen. destruct b; simpl; now rewrite (IH l l' Hlen).
Qed.

Lemma clean_data_well_formed (data_dict : list dict) :
  well_formed (clean_data data_dict).
Proof.
  unfold clean_data, clean_column_names, drop, rename, json_normalize, from_records,
    well_formed.
  simpl. apply List.Forall_forall. intros row (row0 & <- & Hin)%in_map_iff.
  apply in_map_iff in Hin as (d & <- & _).
  rewrite length_map. apply select_length. now rewrite !length_map.
Qed.

(** X3. [clean_data] returns one row per input record, in a frame where every
    row has one cell per column. *)
Theorem clean_data_shape (data_dict : list dict) :
  length (rows (clean_data data_dict)) = length data_dict /\
  well_formed (clean_data data_dict).
Proof.
  split; [|apply clean_data_well_formed].
  unfold clean_data, clean_column_names, drop, rename, json_normalize, from_records.
  simpl. now rewrite !length_map.
Qed.

Lemma dict_set_flat (k : string) (v : value) (acc : dict) :
  is_dict v = false ->
  Forall (fun kv => is_dict (snd kv) = false) acc ->
  Forall (fun kv => is_dict (snd kv) = false) (dict_set k v acc).
Proof.
  intros Hv. induction 1 as [|[k' v'] acc Hkv Hacc IH]; simpl.
  - now constructor.
  - destruct (String.eqb k k'); constructor; assumption.
Qed.

Lemma normalise_json_flat :
  forall (data : value) (key_string : string) (acc : dict),
    Forall (fun kv => is_dict (snd kv) = false) acc ->
    Forall (fun kv => is_dict (snd kv) = false) (normalise_json key_string data acc).
Proof.
  fix IH 1. intros [| |b|z|s|l|fields] key_string acc Hacc; simpl;
    try (now apply dict_set_flat).
  revert acc Hacc. revert fields. fix IHf 1.
  intros [|[key v] fields] acc Hacc; [exact Hacc|].
  apply IHf, IH, Hacc.
Qed.

Lemma dict_update_flat (a b : dict) :
  Forall (fun kv => is_dict (snd kv) = false) a ->
  Forall (fun kv => is_dict (snd kv) = false) b ->
  Forall (fun kv => is_dict (snd kv) = false) (dict_update a b).
Proof.
  unfold dict_update. intros Ha Hb. revert a Ha.
  induction Hb as [|[k v] b Hkv Hb IH]; intros a Ha; simpl; [exact Ha|].
  apply IH, dict_set_flat; assumption.
Qed.

Lemma normalise_json_ordered_flat (data : dict) :
  Forall (fun kv => is_dict (snd kv) = false) (normalise_json_ordered data).
Proof.
  unfold normalise_json_ordered. apply dict_update_flat.
  - apply dict_update_flat; [constructor|].
    apply List.Forall_forall. intros kv [_ Hkv]%filter_In.
    now apply negb_true_iff in Hkv.
  - apply normalise_json_flat. constructor.
Qed.

Lemma dict_get_In (k : string) (v : value) (d : dict) :
  dict_get k d = Some v -> In (k, v) d.
Proof.
  induction d as [|[k' v'] d IH]; simpl; [discriminate|].
  destruct (String.eqb_spec k k') as [->|Hne].
  - intros [= ->]. now left.
  - intros H. right. now apply IH.
Qed.

Lemma select_Forall {A} (P : A -> Prop) (mask : list bool) (l : list A) :
  Forall P l -> Forall P (select mask l).
Proof.
  intros Hl. revert mask. induction Hl as [|x l Hx Hl IH]; intros [|b mask]; simpl;
    try constructor.
  destruct b; [constructor; [exact Hx|] |]; apply IH.
Qed.

(** X4. Flattening is complete: no cell of the frame that [clean_data]
    returns is a dict, whatever the nesting of the input records. *)
Theorem clean_data_flat (data_dict : list dict) : flat (clean_data data_dict).
Proof.
  unfold flat, clean_data, clean_column_names, drop, rename, json_normalize, from_records.
  simpl. apply List.Forall_forall. intros row (row0 & <- & Hin)%in_map_iff.
  apply select_Forall. apply in_map_iff in Hin as (d & <- & Hd).
  apply in_map_iff in Hd as (raw & <- & _).
  apply List.Forall_forall. intros v (c & <- & _)%in_map_iff.
  destruct (dict_get c (normalise_json_ordered raw)) as [v|] eqn:E; [|reflexivity].
  simpl. apply dict_get_In in E.
  pose proof (normalise_json_ordered_flat raw) as Hflat.
  rewrite List.Forall_forall in Hflat. exact (Hflat _ E).
Qed.

Lemma keys_labelled_all (cols : list string) (row : list value) :
  length row = length cols -> keys (combine cols row) = cols.
Proof.
  unfold keys. revert row. induction cols as [|c cols IH]; intros [|v row] Hlen;
    simpl in *; try reflexivity; try discriminate.
  injection Hlen as Hlen. now rewrite IH.
Qed.

(** X26. The records of the frame that [clean_data] returns share one
    schema: each of them has every column of the frame, in the frame's
    order, also the columns that only other records of the batch had. *)
Theorem clean_data_records_share_keys (data_dict : list dict) :
  Forall (fun record => keys record = columns (clean_data data_dict))
         (records (clean_data data_dict)).
Proof.
  apply List.Forall_forall. intros record (row & <- & Hrow)%in_map_iff.
  apply keys_labelled_all.
  pose proof (clean_data_well_formed data_dict) as Hwf.
  unfold well_formed in Hwf. rewrite List.Forall_forall in Hwf. now apply Hwf.
Qed.

End Shape.

(** ** The classifier: where a row goes *)

Module Routing.
Import Str Pandas Pipeline Frame Classifier.

Lemma keys_combine (cols : list string) (row : list value) :
  length row = length cols -> keys (combine cols row) = cols.
Proof.
  unfold keys. revert row. induction cols as [|c cols IH]; intros [|v row] Hlen;
    simpl in *; try reflexivity; try discriminate.
  injection Hlen as Hlen. now rewrite IH.
Qed.

Lemma values_combine (cols : list string) (row : list value) :
  length row = length cols -> map snd (combine cols row) = row.
Proof.
  revert row. induction cols as [|c cols IH]; intros [|v row] Hlen;
    simpl in *; try reflexivity; try discriminate.
  injection Hlen as Hlen. now rewrite IH.
Qed.

Lemma dict_get_replaced (key : string) (v : value) (cols : list string) (row : list value) :
  length row = length cols -> In key cols ->
  dict_get key
    (combine cols (map (fun kv => if String.eqb key (fst kv) then v else snd kv)
                       (combine cols row)))
  = Some v.
Proof.
  revert row. induction cols as [|c cols IH]; intros [|x row] Hlen Hin;
    simpl in *; try discriminate; try contradiction.
  injection Hlen as Hlen.
  destruct (String.eqb_spec key c) as [->|Hne]; [reflexivity|].
  apply IH; [exact Hlen|]. destruct Hin as [->|Hin]; [congruence | exact Hin].
Qed.

Lemma dict_get_appended (key : string) (v : value) (cols : list string) (row : list value) :
  length row = length cols -> ~ In key cols ->
  dict_get key (combine (cols ++ [key]) (row ++ [v])) = Some v.
Proof.
  revert row. induction cols as [|c cols IH]; intros [|x row] Hlen Hno;
    simpl in *; try discriminate.
  - now rewrite String.eqb_refl.
  - injection Hlen as Hlen.
    destruct (String.eqb_spec key c) as [->|Hne]; [exfalso; apply Hno; now left|].
    apply IH; [exact Hlen|]. intros Hin. apply Hno. now right.
Qed.

(** Reading the cell that [df[key] = series] has just set gives the value set. *)
Lemma getitem_setitem (key : string) (series : list value) (df : DataFrame)
    (row : list value) (v : value) :
  length row = length (columns df) ->
  dict_get key (labelled (setitem key series df) (set_cell key v (labelled df row)))
  = Some v.
Proof.
  intros Hlen. unfold labelled, setitem, set_cell. simpl.
  rewrite (keys_combine _ _ Hlen).
  destruct (mem key (columns df)) eqn:E.
  - apply dict_get_replaced; [exact Hlen | now apply mem_In].
  - rewrite (values_combine _ _ Hlen). apply dict_get_appended; [exact Hlen|].
    intros Hin%mem_In. congruence.
Qed.

Section Rows.

Variable check_bracketed_host : string -> bool.

(** The rows of a bucket frame are the rows of the frame with its domain
    column whose domain is in the bucket's list. *)
Lemma routing (staging beta production : list string)
    (df staging_df beta_df production_df : DataFrame) :
  well_formed df ->
  separate_by check_bracketed_host staging beta production df
    = Ok (staging_df, beta_df, production_df) ->
  forall row, In row (rows df) ->
    exists v, apply_domain check_bracketed_host (labelled df row) = Ok v /\
      let row' := set_cell "domain" v (labelled df row) in
      (In row' (rows staging_df) <-> isin staging v = true) /\
      (In row' (rows beta_df) <-> isin beta v = true) /\
      (In row' (rows production_df) <-> isin production v = true).
Proof.
  intros Hwf Hsep row Hrow. unfold separate_by in Hsep.
  destruct (create_domain check_bracketed_host df) as [df0|e] eqn:Ed; [|discriminate].
  apply Classifier.create_domain_Ok in Ed as (domain & Em & ->).
  simpl in Hsep. set (df' := setitem "domain" domain df) in *.
  destruct (domain_in staging df') as [s|e] eqn:Es; [|discriminate].
  destruct (domain_in beta df') as [b|e] eqn:Eb; [|discriminate].
  destruct (domain_in production df') as [p|e] eqn:Ep; [|discriminate].
  simpl in Hsep. injection Hsep as <- <- <-.
  unfold records in Em.
  assert (forall (l : list (list value)) (ys : list value),
             mapM (apply_domain check_bracketed_host) (map (labelled df) l) = Ok ys ->
             forall r, In r l ->
               exists v, apply_domain check_bracketed_host (labelled df r) = Ok v /\
                         In (r, v) (combine l ys)) as Hmap.
  { clear. induction l as [|x l IH]; intros ys Hm r Hr; [destruct Hr|].
    simpl in Hm.
    destruct (apply_domain check_bracketed_host (labelled df x)) as [y|e] eqn:Ex;
      [|discriminate]. simpl in Hm.
    destruct (mapM _ (map (labelled df) l)) as [ys'|e] eqn:El; [|discriminate].
    simpl in Hm. injection Hm as <-.
    destruct Hr as [<-|Hr].
    - exists y. split; [exact Ex | now left].
    - destruct (IH ys' eq_refl r Hr) as (v & Hv & Hin). exists v.
      split; [exact Hv | now right]. }
  destruct (Hmap _ _ Em row Hrow) as (v & Hv & Hin).
  exists v. split; [exact Hv|]. cbv zeta.
  assert (length row = length (columns df)) as Hlen.
  { unfold well_formed in Hwf. rewrite List.Forall_forall in Hwf. now apply Hwf. }
  assert (In (set_cell "domain" v (labelled df row)) (rows df')) as Hin'.
  { subst df'. unfold setitem. simpl. apply in_map_iff.
    exists (row, v). split; [reflexivity | exact Hin]. }
  assert (forall domains out,
             domain_in domains df' = Ok out ->
             In (set_cell "domain" v (labelled df row)) (rows out)
             <-> isin domains v = true) as Hbucket.
  { intros domains out Hout. split.
    - intros H. apply (domain_in_rows _ _ _ _ Hout) in H as [_ H].
      subst df'. now rewrite (getitem_setitem "domain" domain df row v Hlen) in H.
    - intros H. unfold domain_in in Hout. case_bool_decide; [|discriminate].
      injection Hout as <-. simpl. apply filter_In. split; [exact Hin'|].
      subst df'. now rewrite (getitem_setitem "domain" domain df row v Hlen). }
  split; [|split]; eapply Hbucket; eassumption.
Qed.


(** X6. A record whose URL cell is not a string (a number, [None], the [NaN]
    of a record without the field, a list) gets the domain [None] and is in
    none of the three bucket frames. *)
Theorem non_string_url_in_no_bucket (data_dict : list dict)
    (staging_df beta_df production_df : DataFrame) (row : list value) (v : value) :
  separate_environments check_bracketed_host (clean_data data_dict)
    = Ok (staging_df, beta_df, production_df) ->
  In row (rows (clean_data data_dict)) ->
  getitem (labelled (clean_data data_dict) row) "event_properties_url" = Ok (Scalar v) ->
  (forall s, v <> VStr s) ->
  let row' := set_cell "domain" VNull (labelled (clean_data data_dict) row) in
  apply_domain check_bracketed_host (labelled (clean_data data_dict) row) = Ok VNull /\
  ~ In row' (rows staging_df) /\ ~ In row' (rows beta_df) /\
  ~ In row' (rows production_df).
Proof.
  intros Hsep Hrow Hget Hv row'.
  destruct (apply_domain_non_string check_bracketed_host _ v Hget Hv) as [Hnull _].
  destruct (routing _ _ _ _ _ _ _ (Shape.clean_data_well_formed data_dict) Hsep row Hrow)
    as (v' & Hv' & Hs & Hb & Hp).
  rewrite Hnull in Hv'. injection Hv' as <-.
  split; [exact Hnull|]. cbv zeta in Hs, Hb, Hp. subst row'.
  repeat split; intros H; [apply Hs in H | apply Hb in H | apply Hp in H]; discriminate.
Qed.

End Rows.


(** X6, at a batch with a record whose URL is a number. *)
Lemma non_string_url_in_no_bucket_witness :
  let data_dict := [[("$insert_id", VStr "n1");
                     ("event_properties", VDict [("url", VNum 123)])]] in
  let labels := ["insert_id"; "event_properties_url"; "domain"] in
  let row := [VStr "n1"; VNum 123] in
  let none := {| columns := labels; rows := [] |} in
  let row' := set_cell "domain" VNull (labelled (clean_data data_dict) row) in
  separate_environments (fun _ => true) (clean_data data_dict) = Ok (none, none, none) /\
  In row (rows (clean_data data_dict)) /\
  getitem (labelled (clean_data data_dict) row) "event_properties_url"
    = Ok (Scalar (VNum 123)) /\
  (forall s, VNum 123 <> VStr s) /\
  (apply_domain (fun _ => true) (labelled (clean_data data_dict) row) = Ok VNull /\
   ~ In row' (rows none) /\ ~ In row' (rows none) /\ ~ In row' (rows none)).
Proof.
  intros data_dict labels row none row'.
  assert (separate_environments (fun _ => true) (clean_data data_dict)
          = Ok (none, none, none)) as Hsep by reflexivity.
  assert (In row (rows (clean_data data_dict))) as Hrow by (left; reflexivity).
  assert (getitem (labelled (clean_data data_dict) row) "event_properties_url"
          = Ok (Scalar (VNum 123))) as Hget by reflexivity.
  assert (forall s, VNum 123 <> VStr s) as Hv by discriminate.
  repeat (split; [assumption|]).
  exact (non_string_url_in_no_bucket (fun _ => true) data_dict none none none row
           (VNum 123) Hsep Hrow Hget Hv).
Defined.

End Routing.

(** ** The domain of a URL *)

Module Domain.
Import Str StrFacts Text Url Pandas Pipeline Classifier.

Lemma scheme_char_not_colon (c : ascii) :
  scheme_char c = true -> Ascii.eqb c ":" = false.
Proof. all_ascii c; intros H; solve [reflexivity | discriminate H]. Qed.

Lemma partition_scheme (s rest : string) :
  all_chars scheme_char s = true ->
  partition ":" (s +:+ String ":" rest) = Some (s, rest).
Proof.
  induction s as [|c s IH]; simpl; [reflexivity|].
  intros [Hc Hs]%andb_true_iff.
  now rewrite (scheme_char_not_colon c Hc), (IH Hs).
Qed.

Lemma drop_scheme_scheme (s rest : string) :
  is_scheme s = true -> drop_scheme (s +:+ String ":" rest) = rest.
Proof.
  destruct s as [|c s]; [discriminate|]. intros [Hc Hs]%andb_true_iff.
  unfold drop_scheme. rewrite (partition_scheme _ rest Hs). now rewrite Hc, Hs.
Qed.

Lemma splitnetloc_host (host rest : string) :
  all_chars host_char host = true -> after_netloc rest = true ->
  splitnetloc (host +:+ rest) = host.
Proof.
  intros Hh Hr. induction host as [|c host IH]; simpl.
  - destruct rest as [|c rest]; [reflexivity|]. simpl in *. now rewrite Hr.
  - simpl in Hh. apply andb_true_iff in Hh as [Hc Hh]. rewrite (IH Hh).
    unfold host_char in Hc. apply andb_true_iff in Hc as [_ Hc].
    apply negb_true_iff in Hc.
    destruct (Ascii.eqb c "/"), (Ascii.eqb c "?"), (Ascii.eqb c "#");
      simpl in *; try discriminate; reflexivity.
Qed.

Lemma host_without_brackets (host : string) :
  all_chars host_char host = true ->
  contains "[" host = false /\ contains "]" host = false.
Proof.
  induction host as [|c host IH]; simpl; [auto|].
  intros [Hc Hh]%andb_true_iff. destruct (IH Hh) as [-> ->].
  unfold host_char in Hc. apply andb_true_iff in Hc as [_ Hc].
  apply negb_true_iff in Hc.
  repeat (apply orb_false_iff in Hc as [Hc ?]).
  split; apply orb_false_iff; auto.
Qed.

Lemma partition_suffix (c : ascii) (s before after : string) :
  partition c s = Some (before, after) ->
  has_double_slash s = false -> has_double_slash after = false.
Proof.
  revert before. induction s as [|a s IH]; intros before; simpl; [discriminate|].
  destruct (Ascii.eqb a c).
  - intros [= <- <-]. destruct s as [|b s]; [reflexivity|].
    now intros [_ H]%orb_false_iff.
  - destruct (partition c s) as [[b' a']|] eqn:E; [|discriminate].
    intros [= <- <-]. destruct s as [|b s]; [discriminate|].
    intros [_ H]%orb_false_iff. now apply (IH b').
Qed.

Section Netloc.

Variable check_bracketed_host : string -> bool.

Lemma netloc_of_plain_url (scheme host rest : string) :
  is_scheme scheme = true ->
  all_chars host_char host = true ->
  after_netloc rest = true ->
  urlparse_netloc check_bracketed_host (scheme +:+ "://" +:+ host +:+ rest) = Ok host.
Proof.
  intros Hs Hh Hr. unfold urlparse_netloc.
  change (scheme +:+ "://" +:+ host +:+ rest)
    with (scheme +:+ String ":" (String "/" (String "/" (host +:+ rest)))).
  rewrite (drop_scheme_scheme _ _ Hs), (splitnetloc_host _ _ Hh Hr).
  now destruct (host_without_brackets host Hh) as [-> ->].
Qed.

Lemma netloc_without_double_slash (url : string) :
  has_double_slash url = false ->
  urlparse_netloc check_bracketed_host url = Ok EmptyString.
Proof.
  intros Hno. unfold urlparse_netloc.
  assert (has_double_slash (drop_scheme url) = false) as Hd.
  { unfold drop_scheme. destruct (partition ":" url) as [[[|c0 s] rest]|] eqn:E;
      try exact Hno.
    destruct (is_alpha c0 && all_chars scheme_char (String c0 s)); [|exact Hno].
    exact (partition_suffix _ _ _ _ E Hno). }
  destruct (drop_scheme url) as [|a [|b r]]; [reflexivity | |].
  - all_ascii a; reflexivity.
  - destruct (Ascii.eqb_spec a "/") as [->|Ha].
    + destruct (Ascii.eqb_spec b "/") as [->|Hb]; [discriminate Hd|].
      all_ascii b; solve [reflexivity | now destruct Hb].
    + all_ascii a; solve [reflexivity | now destruct Ha].
Qed.

(** X7. For a URL [scheme://location] followed by nothing, a path, a query
    or a fragment, the domain is the location as it is written, in visible
    ASCII characters: a port or a user name stays in it, and the case of the
    letters is kept. *)
Theorem domain_of_plain_url (row : dict) (scheme host rest : string) :
  getitem row "event_properties_url"
    = Ok (Scalar (VStr (scheme +:+ "://" +:+ host +:+ rest))) ->
  is_scheme scheme = true ->
  all_chars host_char host = true ->
  after_netloc rest = true ->
  apply_domain check_bracketed_host row = Ok (VStr host).
Proof.
  intros Hget Hs Hh Hr. unfold apply_domain. rewrite Hget. simpl.
  now rewrite (netloc_of_plain_url _ _ _ Hs Hh Hr).
Qed.

(** X8. A URL string of visible ASCII characters in which [//] does not
    occur (a bare host name, a relative path) has the empty domain, which is
    in none of the configured lists. *)
Theorem domain_without_double_slash (row : dict) (url : string) :
  getitem row "event_properties_url" = Ok (Scalar (VStr url)) ->
  all_chars visible url = true ->
  has_double_slash url = false ->
  apply_domain check_bracketed_host row = Ok (VStr EmptyString) /\
  isin STAGING_DOMAINS (VStr EmptyString) = false /\
  isin BETA_DOMAINS (VStr EmptyString) = false /\
  isin PRODUCTION_DOMAINS (VStr EmptyString) = false.
Proof.
  intros Hget _ Hno. unfold apply_domain. rewrite Hget. simpl.
  rewrite (netloc_without_double_slash url Hno). repeat split.
Qed.

End Netloc.

(** X7, at a production URL with a port: the port stays in the domain, which
    is then in no configured list. *)
Lemma domain_of_plain_url_witness :
  let row := [("event_properties_url", VStr "https://studio.masterwizr.com:443/x")] in
  getitem row "event_properties_url"
    = Ok (Scalar (VStr ("https" +:+ "://" +:+ "studio.masterwizr.com:443" +:+ "/x"))) /\
  is_scheme "https" = true /\
  all_chars host_char "studio.masterwizr.com:443" = true /\
  after_netloc "/x" = true /\
  apply_domain (fun _ => true) row = Ok (VStr "studio.masterwizr.com:443").
Proof.
  intros row.
  assert (getitem row "event_properties_url"
          = Ok (Scalar (VStr ("https" +:+ "://" +:+ "studio.masterwizr.com:443" +:+ "/x"))))
    as Hget by reflexivity.
  split; [exact Hget|]. split; [reflexivity|]. split; [reflexivity|].
  split; [reflexivity|].
  exact (domain_of_plain_url (fun _ => true) row "https" "studio.masterwizr.com:443" "/x"
           Hget eq_refl eq_refl eq_refl).
Defined.

(** X8, at a production host written without scheme. *)
Lemma domain_without_double_slash_witness :
  let row := [("event_properties_url", VStr "studio.masterwizr.com/x")] in
  getitem row "event_properties_url" = Ok (Scalar (VStr "studio.masterwizr.com/x")) /\
  all_chars visible "studio.masterwizr.com/x" = true /\
  has_double_slash "studio.masterwizr.com/x" = false /\
  (apply_domain (fun _ => true) row = Ok (VStr EmptyString) /\
   isin STAGING_DOMAINS (VStr EmptyString) = false /\
   isin BETA_DOMAINS (VStr EmptyString) = false /\
   isin PRODUCTION_DOMAINS (VStr EmptyString) = false).
Proof.
  intros row.
  split; [reflexivity|]. split; [reflexivity|]. split; [reflexivity|].
  exact (domain_without_double_slash (fun _ => true) row "studio.masterwizr.com/x"
           eq_refl eq_refl eq_refl).
Defined.

End Domain.

(** ** The store under a load *)

Module Store.
Import Pandas Pipeline Mongo MongoFacts Loader LoaderFacts.

Lemma value_eqb_eq : forall a b : value, value_eqb a b = true -> a = b.
Proof.
  fix IH 1. intros [| |x|x|x|l|d] [| |y|y|y|l'|d']; simpl; try discriminate;
    try reflexivity.
  - intros H. f_equal. now apply Bool.eqb_prop.
  - intros H. f_equal. now apply Z.eqb_eq.
  - intros H. f_equal. now apply String.eqb_eq.
  - intros H. f_equal. revert l l' H. fix IHl 1.
    intros [|x l] [|y l'] H; try discriminate; [reflexivity|].
    apply andb_true_iff in H as [Hx Hl]. f_equal; [now apply IH | now apply IHl].
  - intros H. f_equal. revert d d' H. fix IHd 1.
    intros [|[k x] d] [|[k' y] d'] H; try discriminate; [reflexivity|].
    apply andb_true_iff in H as [[Hk Hx]%andb_true_iff Hd].
    apply String.eqb_eq in Hk as ->. f_equal; [f_equal; now apply IH | now apply IHd].
Qed.

Lemma same_insert_id_sym (d d' : dict) : same_insert_id d d' = same_insert_id d' d.
Proof.
  unfold same_insert_id.
  destruct (value_eqb (insert_id d) (insert_id d')) eqn:E.
  - apply value_eqb_eq in E. rewrite E. symmetry. apply value_eqb_refl.
  - destruct (value_eqb (insert_id d') (insert_id d)) eqn:E'; [|reflexivity].
    apply value_eqb_eq in E'. rewrite E', value_eqb_refl in E. discriminate.
Qed.

Lemma distinct_keys_app (l r : list dict) :
  distinct_keys (l ++ r) = true <->
  distinct_keys l = true /\ distinct_keys r = true /\
  forall x y, In x l -> In y r -> same_insert_id x y = false.
Proof.
  induction l as [|a l IH]; simpl.
  - split; [intros H; repeat split; [exact H | intros ? ? []] | now intros (_ & H & _)].
  - rewrite andb_true_iff, negb_true_iff, IH. unfold duplicate_key.
    split.
    + intros (Ha & Hl & Hr & Hlr). rewrite existsb_app in Ha.
      apply orb_false_iff in Ha as [Hal Har]. rewrite Hal, Hl. repeat split; auto.
      intros x y [<-|Hx] Hy; [|now apply Hlr].
      destruct (same_insert_id a y) eqn:E; [|reflexivity].
      assert (existsb (same_insert_id a) r = true) as Hex; [|congruence].
      apply existsb_exists. eauto.
    + intros ([Ha Hl]%andb_true_iff & Hr & Hlr). apply negb_true_iff in Ha.
      repeat split; auto. rewrite existsb_app, Ha. simpl.
      destruct (existsb (same_insert_id a) r) eqn:E; [|reflexivity].
      apply existsb_exists in E as (y & Hy & Hay).
      rewrite (Hlr a y) in Hay; [discriminate | now left | exact Hy].
Qed.

Lemma distinct_keys_snoc (l : list dict) (d : dict) :
  distinct_keys l = true -> duplicate_key d l = false ->
  distinct_keys (l ++ [d]) = true.
Proof.
  intros Hl Hd. apply distinct_keys_app. repeat split; [exact Hl|].
  intros x y Hx [<-|[]]. rewrite same_insert_id_sym.
  unfold duplicate_key in Hd. destruct (same_insert_id d x) eqn:E; [|reflexivity].
  assert (existsb (same_insert_id d) l = true) as Hex; [|congruence].
  apply existsb_exists. eauto.
Qed.

Lemma distinct_keys_fresh (l r : list dict) (d : dict) :
  distinct_keys (l ++ d :: r) = true -> duplicate_key d l = false.
Proof.
  intros (_ & _ & H)%distinct_keys_app. unfold duplicate_key.
  destruct (existsb (same_insert_id d) l) eqn:E; [|reflexivity].
  apply existsb_exists in E as (x & Hx & Hdx).
  rewrite same_insert_id_sym, (H x d Hx) in Hdx; [discriminate | now left].
Qed.

Section Server.

Variable rejects : dict -> option write_error.
Variable client_error : list dict -> option (nat * exn).

Lemma insert_one_distinct (c c' : collection) (d : dict) :
  unique_insert_id c = true -> distinct_keys (docs c) = true ->
  insert_one rejects c d = inl c' ->
  unique_insert_id c' = true /\ distinct_keys (docs c') = true.
Proof.
  intros Hu Hd. unfold insert_one. destruct (rejects d); [discriminate|].
  rewrite Hu. simpl. destruct (duplicate_key d (docs c)) eqn:E; [discriminate|].
  intros [= <-]. simpl. split; [reflexivity | now apply distinct_keys_snoc].
Qed.

Lemma bulk_insert_distinct (ordered : bool) (ds : list dict) (c : collection) :
  unique_insert_id c = true -> distinct_keys (docs c) = true ->
  unique_insert_id (fst (bulk_insert rejects ordered c ds)) = true /\
  distinct_keys (docs (fst (bulk_insert rejects ordered c ds))) = true.
Proof.
  revert c. induction ds as [|d ds IH]; intros c Hu Hd; simpl; [auto|].
  destruct (insert_one rejects c d) as [c'|e] eqn:E.
  - destruct (insert_one_distinct c c' d Hu Hd E) as [Hu' Hd']. now apply IH.
  - destruct ordered; [simpl; auto|].
    destruct (bulk_insert rejects false c ds) as [c' es] eqn:Eb.
    specialize (IH c Hu Hd). rewrite Eb in IH. exact IH.
Qed.

Lemma bulk_insert_prefix (ds : list dict) (c : collection) :
  exists l, docs (fst (bulk_insert rejects true c ds)) = docs c ++ l /\
            l `prefix_of` ds.
Proof.
  revert c. induction ds as [|d ds IH]; intros c; simpl.
  - exists []. split; [now rewrite app_nil_r | apply prefix_nil].
  - destruct (insert_one rejects c d) as [c'|e] eqn:E; simpl.
    + apply insert_one_inl in E as (_ & Hd & _).
      destruct (IH c') as (l & Hl & Hpre). exists (d :: l).
      split; [rewrite Hl, Hd, <- app_assoc; reflexivity | now apply prefix_cons].
    + exists []. split; [now rewrite app_nil_r | apply prefix_nil].
Qed.

Lemma bulk_insert_one_error (ds : list dict) (c : collection) :
  length (snd (bulk_insert rejects true c ds)) <= 1.
Proof.
  revert c. induction ds as [|d ds IH]; intros c; simpl; [lia|].
  destruct (insert_one rejects c d) as [c'|e]; [apply IH | simpl; lia].
Qed.

Lemma bulk_insert_fresh (ds : list dict) (c : collection) :
  unique_insert_id c = true ->
  Forall (fun d => rejects d = None) ds ->
  distinct_keys (docs c ++ ds) = true ->
  bulk_insert rejects true c ds
  = ({| docs := docs c ++ ds; unique_insert_id := true |}, []).
Proof.
  revert c. induction ds as [|d ds IH]; intros c Hu Hacc Hdis; simpl.
  - rewrite app_nil_r. destruct c as [dc uc]. simpl in *. now subst.
  - apply Forall_cons in Hacc as [Hd Hacc]. unfold insert_one.
    rewrite Hd, Hu, (distinct_keys_fresh _ _ _ Hdis). simpl.
    rewrite (IH {| docs := docs c ++ [d]; unique_insert_id := true |}); simpl;
      try assumption; try reflexivity.
    + now rewrite <- app_assoc.
    + now rewrite <- app_assoc.
Qed.

Lemma insert_many_distinct (ds : list dict) (c : collection) :
  unique_insert_id c = true -> distinct_keys (docs c) = true ->
  unique_insert_id (fst (insert_many rejects client_error c ds)) = true /\
  distinct_keys (docs (fst (insert_many rejects client_error c ds))) = true.
Proof. rewrite insert_many_sent. apply bulk_insert_distinct. Qed.

Lemma insert_many_prefix (ds : list dict) (c : collection) :
  exists l, docs (fst (insert_many rejects client_error c ds)) = docs c ++ l /\
            l `prefix_of` ds.
Proof.
  rewrite insert_many_sent.
  destruct (bulk_insert_prefix
              match client_error ds with
              | Some (n, _) => firstn n ds
              | None => ds
              end c) as (l & Hl & Hpre).
  exists l. split; [exact Hl|].
  destruct (client_error ds) as [[n e]|]; [|exact Hpre].
  etrans; [exact Hpre|]. exists (skipn n ds). symmetry. apply firstn_skipn.
Qed.

End Server.

Lemma create_index_distinct (c0 c : collection) :
  (unique_insert_id c0 = true -> distinct_keys (docs c0) = true) ->
  create_index c0 = Ok c ->
  unique_insert_id c = true /\ distinct_keys (docs c) = true /\ docs c = docs c0.
Proof.
  intros Hinv. unfold create_index. destruct (unique_insert_id c0) eqn:Eu.
  - intros [= <-]. auto.
  - destruct (distinct_keys (docs c0)) eqn:Ed; [|discriminate].
    intros [= <-]. simpl. auto.
Qed.

Section Loads.

Variable rejects : dict -> option write_error.
Variable client_error : list dict -> option (nat * exn).

Lemma get_collection_upload (conn : connectivity) (df : DataFrame) (name : string)
    (w : world) :
  get_collection name (fst (upload_to_mongo rejects client_error conn df name w))
  = match written rejects client_error conn df (get_collection name w) with
    | Some c => c
    | None => get_collection name w
    end.
Proof.
  unfold get_collection at 1. rewrite db_upload_to_mongo.
  destruct (written rejects client_error conn df (get_collection name w));
    [now rewrite lookup_insert_eq | reflexivity].
Qed.

(** When the loader returns [None] the bulk write was reached. *)
Lemma upload_to_mongo_None (conn : connectivity) (df : DataFrame) (name : string)
    (w : world) :
  snd (upload_to_mongo rejects client_error conn df name w) = None ->
  conn = Connected /\
  exists d ds c, to_json_records df = Ok (d :: ds) /\
                 create_index (get_collection name w) = Ok c.
Proof.
  unfold upload_to_mongo. destruct conn; try discriminate;
    destruct (to_json_records df) as [records|e]; try discriminate.
  change (get_collection name (logging INFO "Connected to Mongo" w))
    with (get_collection name w).
  destruct (create_index (get_collection name w)) as [c|e]; [|discriminate].
  destruct records as [|d ds]; [discriminate|].
  intros _. split; [reflexivity|]. now exists d, ds, c.
Qed.

Lemma written_bulk (df : DataFrame) (c0 c : collection) (records : list dict) :
  to_json_records df = Ok records -> create_index c0 = Ok c ->
  written rejects client_error Connected df c0
  = Some (fst (insert_many rejects client_error c records)).
Proof. intros Hrec Hidx. unfold written. now rewrite Hrec, Hidx. Qed.

(** X9. A load that returns [None] leaves its collection with the unique
    index and with pairwise distinct [insert_id] keys, provided the
    collection was not already an indexed one with equal keys. *)
Theorem load_keeps_keys_distinct (conn : connectivity) (df : DataFrame)
    (name : string) (w : world) :
  (unique_insert_id (get_collection name w) = true ->
   distinct_keys (docs (get_collection name w)) = true) ->
  snd (upload_to_mongo rejects client_error conn df name w) = None ->
  let c := get_collection name (fst (upload_to_mongo rejects client_error conn df name w)) in
  unique_insert_id c = true /\ distinct_keys (docs c) = true.
Proof.
  intros Hinv Hret c. subst c.
  destruct (upload_to_mongo_None conn df name w Hret) as (-> & d & ds & c1 & Hrec & Hidx).
  rewrite get_collection_upload, (written_bulk df _ c1 (d :: ds) Hrec Hidx).
  destruct (create_index_distinct _ _ Hinv Hidx) as (Hu & Hd & _).
  now apply insert_many_distinct.
Qed.

(** X10. A load never removes, changes or reorders stored documents: the
    collection afterwards is the collection before followed by a leading
    segment of the batch (the records up to the first one refused). *)
Theorem load_appends_leading_records (conn : connectivity) (df : DataFrame)
    (name : string) (w : world) :
  exists l,
    docs (get_collection name (fst (upload_to_mongo rejects client_error conn df name w)))
    = docs (get_collection name w) ++ l /\
    l `prefix_of` match to_json_records df with
                  | Ok records => records
                  | Raise _ => []
                  end.
Proof.
  rewrite get_collection_upload. unfold written.
  destruct conn; try (exists []; split; [now rewrite app_nil_r | apply prefix_nil]).
  destruct (to_json_records df) as [records|e];
    [|exists []; split; [now rewrite app_nil_r | apply prefix_nil]].
  destruct (create_index (get_collection name w)) as [c|e] eqn:Ec;
    [|exists []; split; [now rewrite app_nil_r | apply prefix_nil]].
  apply create_index_unique in Ec as (_ & Hdocs & _).
  destruct (insert_many_prefix rejects client_error records c) as (l & Hl & Hpre).
  exists l. split; [now rewrite Hl, Hdocs | exact Hpre].
Qed.

(** X11. A batch that the driver can send, that the server accepts and whose
    [insert_id] keys are distinct from one another and from the stored ones
    is written whole and in order; the loader returns [None] and logs only
    the connection line. *)
Theorem fresh_batch_is_loaded (df : DataFrame) (name : string) (w : world)
    (records : list dict) :
  to_json_records df = Ok records ->
  records <> [] ->
  client_error records = None ->
  Forall (fun d => rejects d = None) records ->
  distinct_keys (docs (get_collection name w) ++ records) = true ->
  let run := upload_to_mongo rejects client_error Connected df name w in
  snd run = None /\
  get_collection name (fst run)
  = {| docs := docs (get_collection name w) ++ records; unique_insert_id := true |} /\
  log (fst run) = log w ++ [(INFO, "Connected to Mongo")].
Proof.
  intros Hrec Hne Hsend Hacc Hdis run. subst run.
  destruct records as [|d ds]; [congruence|].
  assert (exists c, create_index (get_collection name w) = Ok c) as [c Hidx].
  { unfold create_index. destruct (unique_insert_id _); [eauto|].
    apply distinct_keys_app in Hdis as (-> & _). eauto. }
  pose proof (create_index_unique _ _ Hidx) as (Hu & Hdocs & _).
  rewrite get_collection_upload, (written_bulk df _ c (d :: ds) Hrec Hidx).
  rewrite (insert_many_bulk rejects client_error d ds c Hsend).
  rewrite (upload_to_mongo_bulk rejects client_error df name w d ds c Hrec Hsend Hidx).
  cbv zeta. rewrite <- Hdocs in Hdis.
  rewrite (bulk_insert_fresh rejects (d :: ds) c Hu Hacc Hdis). simpl.
  now rewrite Hdocs.
Qed.

(** X12. When the driver can send every record of the batch the loader
    returns [None] whatever the server refused: a refusal is only logged,
    with the server's message, unless its code is 11000; and an ordered
    write has at most one. *)
Theorem write_errors_are_only_logged (df : DataFrame) (name : string) (w : world)
    (d : dict) (ds : list dict) (c : collection) :
  to_json_records df = Ok (d :: ds) ->
  client_error (d :: ds) = None ->
  create_index (get_collection name w) = Ok c ->
  let run := upload_to_mongo rejects client_error Connected df name w in
  let write_errors := snd (bulk_insert rejects true c (d :: ds)) in
  snd run = None /\
  log (fst run)
  = log w ++ (INFO, "Connected to Mongo")
      :: map (fun e => (ERROR, errmsg e))
             (List.filter (fun e => negb (code e =? 11000)%Z) write_errors) /\
  length write_errors <= 1.
Proof.
  intros Hrec Hsend Hidx run write_errors. subst run write_errors.
  rewrite (upload_to_mongo_bulk rejects client_error df name w d ds c Hrec Hsend Hidx).
  cbv zeta.
  split; [reflexivity|]. split; [|apply bulk_insert_one_error].
  cbn [fst]. rewrite log_log_write_errors. simpl. now rewrite <- app_assoc.
Qed.

(** X13. A frame without rows (a bucket no record of the day belongs to)
    makes the loader end in [except Exception]: it returns the failure value
    and logs an error although the store was reached, and the documents of
    the collection stay as they were. *)
Theorem empty_frame_reported_as_failure (df : DataFrame) (name : string) (w : world) :
  rows df = [] ->
  let run := upload_to_mongo rejects client_error Connected df name w in
  snd run = Some load_failed /\
  docs (get_collection name (fst run)) = docs (get_collection name w) /\
  In (ERROR, "None") (log (fst run)).
Proof.
  intros Hrows run. subst run.
  rewrite get_collection_upload. unfold written, upload_to_mongo, to_json_records.
  rewrite Hrows. simpl map.
  destruct (bool_decide (NoDup (columns df))).
  - change (get_collection name (logging INFO "Connected to Mongo" w))
      with (get_collection name w).
    destruct (create_index (get_collection name w)) as [c|e] eqn:Ec.
    + apply create_index_unique in Ec as (_ & Hdocs & _).
      split; [reflexivity|]. split; [exact Hdocs|].
      simpl. apply in_or_app. right. now left.
    + split; [reflexivity|]. split; [reflexivity|].
      simpl. apply in_or_app. right. now left.
  - split; [reflexivity|]. split; [reflexivity|].
    simpl. apply in_or_app. right. now left.
Qed.

(** X14. A collection without the index whose documents already share an
    [insert_id] can never be loaded: the index cannot be built, the loader
    returns the failure value and the store stays as it was. *)
Theorem collection_with_equal_keys_is_never_loaded (conn : connectivity)
    (df : DataFrame) (name : string) (w : world) :
  unique_insert_id (get_collection name w) = false ->
  distinct_keys (docs (get_collection name w)) = false ->
  let run := upload_to_mongo rejects client_error conn df name w in
  snd run = Some load_failed /\ db (fst run) = db w.
Proof.
  intros Hu Hd run. subst run. rewrite db_upload_to_mongo.
  unfold written, upload_to_mongo.
  destruct conn; try (split; reflexivity);
    destruct (to_json_records df) as [records|e]; try (split; reflexivity).
  change (get_collection name (logging INFO "Connected to Mongo" w))
    with (get_collection name w).
  unfold create_index. rewrite Hu, Hd. split; reflexivity.
Qed.

(** A document of the collection after a load was there before or is a
    record of the frame. *)
Lemma upload_to_mongo_docs (conn : connectivity) (df : DataFrame) (name : string)
    (w : world) (doc : dict) :
  In doc (docs (get_collection name (fst (upload_to_mongo rejects client_error conn df name w)))) ->
  In doc (docs (get_collection name w)) \/
  exists records, to_json_records df = Ok records /\ In doc records.
Proof.
  rewrite get_collection_upload. unfold written.
  destruct conn; try (now left).
  destruct (to_json_records df) as [records|e]; [|now left].
  destruct (create_index (get_collection name w)) as [c|e] eqn:Ec; [|now left].
  apply create_index_unique in Ec as (_ & Hdocs & _).
  destruct (insert_many_prefix rejects client_error records c) as (l & Hl & [k Hk]).
  rewrite Hl, Hdocs. intros [H|H]%in_app_or; [now left|].
  right. exists records. split; [reflexivity|]. rewrite Hk. apply in_or_app. now left.
Qed.

(** Loading again what a load that connected has loaded changes nothing. *)
Lemma reload_changes_nothing (conn2 : connectivity) (df : DataFrame) (name : string)
    (w w' : world) :
  db w' !! name = db (fst (upload_to_mongo rejects client_error Connected df name w)) !! name ->
  db (fst (upload_to_mongo rejects client_error conn2 df name w')) = db w'.
Proof.
  intros Hsame. rewrite db_upload_to_mongo.
  rewrite db_upload_to_mongo in Hsame.
  destruct (written rejects client_error Connected df (get_collection name w)) as [c1|] eqn:E1.
  - rewrite lookup_insert_eq in Hsame.
    assert (get_collection name w' = c1) as ->
      by (unfold get_collection; now rewrite Hsame).
    destruct conn2; try reflexivity.
    rewrite (written_again rejects client_error df _ c1 E1). now apply fin_maps.insert_id.
  - assert (get_collection name w' = get_collection name w) as ->
      by now apply get_collection_db.
    destruct conn2; try reflexivity. now rewrite E1.
Qed.

(** A frame with a repeated label is never written. *)
Lemma upload_to_mongo_repeated_label (conn : connectivity) (df : DataFrame)
    (name : string) (w : world) :
  ~ NoDup (columns df) ->
  snd (upload_to_mongo rejects client_error conn df name w) = Some load_failed /\
  db (fst (upload_to_mongo rejects client_error conn df name w)) = db w.
Proof.
  intros Hdup. rewrite db_upload_to_mongo. unfold written, upload_to_mongo, to_json_records.
  rewrite bool_decide_eq_false_2 by exact Hdup.
  destruct conn; split; reflexivity.
Qed.

(** X28. A record that the driver cannot send makes the load end in
    [except Exception] although the store was reached: the loader returns
    the failure value and logs an error, and the collection has its index
    and the records of the messages that went out before, which the server
    took. *)
Theorem unsendable_record_fails_the_load (df : DataFrame) (name : string) (w : world)
    (records : list dict) (c : collection) (n : nat) (e : exn) :
  to_json_records df = Ok records ->
  create_index (get_collection name w) = Ok c ->
  client_error records = Some (n, e) ->
  snd (bulk_insert rejects true c (firstn n records)) = [] ->
  let run := upload_to_mongo rejects client_error Connected df name w in
  snd run = Some load_failed /\
  get_collection name (fst run) = fst (bulk_insert rejects true c (firstn n records)) /\
  log (fst run) = log w ++ [(INFO, "Connected to Mongo"); (ERROR, "None")].
Proof.
  intros Hrec Hidx Hsend Hsent run. subst run.
  rewrite get_collection_upload, (written_bulk df _ c records Hrec Hidx).
  rewrite insert_many_sent, Hsend.
  unfold upload_to_mongo. rewrite Hrec.
  change (get_collection name (logging INFO "Connected to Mongo" w))
    with (get_collection name w).
  rewrite Hidx. unfold insert_many. rewrite Hsend.
  destruct records as [|d ds].
  - split; [reflexivity|]. split; [reflexivity|]. simpl. now rewrite <- app_assoc.
  - destruct (bulk_insert rejects true c (firstn n (d :: ds))) as [c2 errs].
    simpl in Hsent. subst errs.
    split; [reflexivity|]. split; [reflexivity|]. simpl. now rewrite <- app_assoc.
Qed.

End Loads.

(** X9, at the first load of two records into an empty store. *)
Lemma load_keeps_keys_distinct_witness :
  let accept := fun _ : dict => @None write_error in
  let df := {| columns := ["insert_id"]; rows := [[VStr "a"]; [VStr "b"]] |} in
  let w := {| db := ∅; log := [] |} in
  let c := get_collection "production"
             (fst (upload_to_mongo accept (fun _ => None) Connected df "production" w)) in
  (unique_insert_id (get_collection "production" w) = true ->
   distinct_keys (docs (get_collection "production" w)) = true) /\
  snd (upload_to_mongo accept (fun _ => None) Connected df "production" w) = None /\
  (unique_insert_id c = true /\ distinct_keys (docs c) = true).
Proof.
  intros accept df w c.
  assert (unique_insert_id (get_collection "production" w) = true ->
          distinct_keys (docs (get_collection "production" w)) = true) as Hinv
    by (intros _; reflexivity).
  assert (snd (upload_to_mongo accept (fun _ => None) Connected df "production" w) = None) as Hret
    by reflexivity.
  split; [exact Hinv|]. split; [exact Hret|].
  exact (load_keeps_keys_distinct accept (fun _ => None) Connected df "production" w Hinv Hret).
Defined.

(** X11, at two new records loaded into a collection that holds a third. *)
Lemma fresh_batch_is_loaded_witness :
  let accept := fun _ : dict => @None write_error in
  let df := {| columns := ["insert_id"]; rows := [[VStr "a"]; [VStr "b"]] |} in
  let records := [[("insert_id", VStr "a")]; [("insert_id", VStr "b")]] in
  let stored := {| docs := [[("insert_id", VStr "z")]]; unique_insert_id := true |} in
  let w := {| db := {["production" := stored]}; log := [] |} in
  let run := upload_to_mongo accept (fun _ => None) Connected df "production" w in
  to_json_records df = Ok records /\
  records <> [] /\
  Forall (fun d => accept d = None) records /\
  distinct_keys (docs (get_collection "production" w) ++ records) = true /\
  (snd run = None /\
   get_collection "production" (fst run)
   = {| docs := docs (get_collection "production" w) ++ records;
        unique_insert_id := true |} /\
   log (fst run) = log w ++ [(INFO, "Connected to Mongo")]).
Proof.
  intros accept df records stored w run.
  assert (to_json_records df = Ok records) as Hrec by reflexivity.
  assert (records <> []) as Hne by discriminate.
  assert (Forall (fun d => accept d = None) records) as Hacc by (repeat constructor).
  assert (distinct_keys (docs (get_collection "production" w) ++ records) = true)
    as Hdis by reflexivity.
  repeat (split; [assumption|]).
  exact (fresh_batch_is_loaded accept (fun _ => None) df "production" w records
           Hrec Hne eq_refl Hacc Hdis).
Defined.

(** X12, at a batch whose second record fails the validation rules that the
    collection has on the server. *)
Lemma write_errors_are_only_logged_witness :
  let invalid := {| code := 121; errmsg := "Document failed validation" |} in
  let refuse := fun d : dict =>
                  if value_eqb (insert_id d) (VStr "b") then Some invalid else None in
  let df := {| columns := ["insert_id"]; rows := [[VStr "a"]; [VStr "b"]] |} in
  let d := [("insert_id", VStr "a")] in
  let ds := [[("insert_id", VStr "b")]] in
  let c := {| docs := []; unique_insert_id := true |} in
  let w := {| db := ∅; log := [] |} in
  let run := upload_to_mongo refuse (fun _ => None) Connected df "production" w in
  let write_errors := snd (bulk_insert refuse true c (d :: ds)) in
  to_json_records df = Ok (d :: ds) /\
  create_index (get_collection "production" w) = Ok c /\
  (snd run = None /\
   log (fst run)
   = log w ++ (INFO, "Connected to Mongo")
       :: map (fun e => (ERROR, errmsg e))
              (List.filter (fun e => negb (code e =? 11000)%Z) write_errors) /\
   length write_errors <= 1).
Proof.
  intros invalid refuse df d ds c w run write_errors.
  assert (to_json_records df = Ok (d :: ds)) as Hrec by reflexivity.
  assert (create_index (get_collection "production" w) = Ok c) as Hidx by reflexivity.
  split; [exact Hrec|]. split; [exact Hidx|].
  exact (write_errors_are_only_logged refuse (fun _ => None) df "production" w d ds c
           Hrec eq_refl Hidx).
Defined.

(** X13, at the load of a bucket frame without rows. *)
Lemma empty_frame_reported_as_failure_witness :
  let accept := fun _ : dict => @None write_error in
  let df := {| columns := ["insert_id"; "domain"]; rows := [] |} in
  let w := {| db := ∅; log := [] |} in
  let run := upload_to_mongo accept (fun _ => None) Connected df "beta" w in
  rows df = [] /\
  (snd run = Some load_failed /\
   docs (get_collection "beta" (fst run)) = docs (get_collection "beta" w) /\
   In (ERROR, "None") (log (fst run))).
Proof.
  intros accept df w run. split; [reflexivity|].
  exact (empty_frame_reported_as_failure accept (fun _ => None) df "beta" w eq_refl).
Defined.

(** X28, at a record with an integer of 65 bits: nothing is stored. *)
Lemma unsendable_record_fails_the_load_witness :
  let accept := fun _ : dict => @None write_error in
  let df := {| columns := ["insert_id"; "event_id"];
               rows := [[VStr "p1"; VNum 9223372036854775808]] |} in
  let records := [[("insert_id", VStr "p1"); ("event_id", VNum 9223372036854775808)]] in
  let c := {| docs := []; unique_insert_id := true |} in
  let w := {| db := ∅; log := [] |} in
  let run := upload_to_mongo accept overflow_error Connected df "production" w in
  to_json_records df = Ok records /\
  create_index (get_collection "production" w) = Ok c /\
  overflow_error records = Some (0, OverflowError) /\
  snd (bulk_insert accept true c (firstn 0 records)) = [] /\
  (snd run = Some load_failed /\
   get_collection "production" (fst run) = fst (bulk_insert accept true c (firstn 0 records)) /\
   log (fst run) = log w ++ [(INFO, "Connected to Mongo"); (ERROR, "None")]).
Proof.
  intros accept df records c w run.
  assert (to_json_records df = Ok records) as Hrec by reflexivity.
  assert (create_index (get_collection "production" w) = Ok c) as Hidx by reflexivity.
  assert (overflow_error records = Some (0, OverflowError)) as Hsend by reflexivity.
  assert (snd (bulk_insert accept true c (firstn 0 records)) = []) as Hsent by reflexivity.
  repeat (split; [assumption|]).
  exact (unsendable_record_fails_the_load accept overflow_error df "production" w records c
           0 OverflowError Hrec Hidx Hsend Hsent).
Defined.

(** X14, at a collection without index that holds one key twice. *)
Lemma collection_with_equal_keys_is_never_loaded_witness :
  let accept := fun _ : dict => @None write_error in
  let df := {| columns := ["insert_id"]; rows := [[VStr "b"]] |} in
  let stored := {| docs := [[("insert_id", VStr "a")]; [("insert_id", VStr "a")]];
                   unique_insert_id := false |} in
  let w := {| db := {["production" := stored]}; log := [] |} in
  let run := upload_to_mongo accept (fun _ => None) Connected df "production" w in
  unique_insert_id (get_collection "production" w) = false /\
  distinct_keys (docs (get_collection "production" w)) = false /\
  (snd run = Some load_failed /\ db (fst run) = db w).
Proof.
  intros accept df stored w run.
  split; [reflexivity|]. split; [reflexivity|].
  exact (collection_with_equal_keys_is_never_loaded accept (fun _ => None) Connected df "production" w
           eq_refl eq_refl).
Defined.

End Store.

(** ** The run, further *)

Module Batch.
Import Str Pandas Pipeline Mongo MongoFacts Loader LoaderFacts RunFacts Store.

Lemma add_labels_seen (labels seen : list string) (k : string) :
  In k seen -> In k (add_labels seen labels).
Proof.
  unfold add_labels. revert seen.
  induction labels as [|l labels IH]; intros seen Hk; simpl; [exact Hk|].
  apply IH. destruct (mem l seen); [exact Hk|]. apply in_or_app. now left.
Qed.

Lemma add_labels_new (labels seen : list string) (k : string) :
  In k labels -> In k (add_labels seen labels).
Proof.
  unfold add_labels. revert seen.
  induction labels as [|l labels IH]; intros seen Hk; [destruct Hk|]. simpl.
  destruct Hk as [->|Hk]; [|now apply IH].
  apply (add_labels_seen labels). destruct (mem k seen) eqn:E.
  - now apply Classifier.mem_In.
  - apply in_or_app. right. now left.
Qed.

Lemma union_labels_In (ls : list (list string)) (l : list string) (k : string) :
  In l ls -> In k l -> In k (union_labels ls).
Proof.
  unfold union_labels. generalize (@nil string) as seen.
  induction ls as [|l' ls IH]; intros seen Hl Hk; [destruct Hl|]. simpl.
  destruct Hl as [->|Hl]; [|now apply IH].
  assert (forall seen', In k seen' -> In k (fold_left add_labels ls seen')) as Hkeep.
  { clear. induction ls as [|l ls IH]; intros seen' H; simpl; [exact H|].
    now apply IH, add_labels_seen. }
  now apply Hkeep, add_labels_new.
Qed.

Lemma mapM_read_json_Some (bodies : list (list dict)) :
  mapM read_json (map Some bodies) = Ok (map from_records bodies).
Proof.
  induction bodies as [|b bodies IH]; [reflexivity|]. simpl. now rewrite IH.
Qed.

Lemma length_flat_map_rows (cols : list string) (bodies : list (list dict)) :
  length (flat_map
            (fun df => map (fun row =>
                              map (fun c => default VNaN (dict_get c (labelled df row))) cols)
                           (rows df))
            (map from_records bodies))
  = length (List.concat bodies).
Proof.
  induction bodies as [|b bodies IH]; [reflexivity|]. simpl.
  now rewrite !length_app, !length_map, IH.
Qed.

(** The records that reading gives, spelled out. *)
Lemma read_sources_Some (bodies : list (list dict)) :
  bodies <> [] ->
  let dfs := map from_records bodies in
  let cols := union_labels (map columns dfs) in
  read_sources (map Some bodies)
  = Ok (map (fun row => map (fun kv => (fst kv, nan_to_null (snd kv))) (combine cols row))
            (flat_map
               (fun df => map (fun row =>
                                 map (fun c => default VNaN (dict_get c (labelled df row)))
                                     cols)
                              (rows df))
               dfs)).
Proof.
  intros Hne dfs cols. unfold read_sources.
  destruct bodies as [|b bodies]; [congruence|].
  change (map Some (b :: bodies)) with (Some b :: map Some bodies) at 1.
  cbv iota. rewrite mapM_read_json_Some. fold dfs.
  assert (exists df dfs', dfs = df :: dfs') as (df & dfs' & Hdfs)
    by (subst dfs; simpl; eauto).
  cbn [mbind result_bind]. unfold Pandas.concat. rewrite Hdfs at 1.
  cbn [mbind result_bind]. fold cols. unfold to_json_records, labelled.
  cbn [columns rows].
  now rewrite bool_decide_eq_true_2 by apply union_labels_NoDup.
Qed.

(** X15. Reading keeps every line: the records handed to
    [process_and_upload_data] are as many as the lines of all the bodies, and
    they all have the same keys, without repetition, among which are the
    keys of every line. *)
Theorem read_sources_keeps_every_line (bodies : list (list dict)) :
  bodies <> [] ->
  exists data_dict cols,
    read_sources (map Some bodies) = Ok data_dict /\
    length data_dict = length (List.concat bodies) /\
    NoDup cols /\
    Forall (fun d => keys d = cols) data_dict /\
    Forall (fun line => forall k, In k (keys line) -> In k cols) (List.concat bodies).
Proof.
  intros Hne. pose proof (read_sources_Some bodies Hne) as Hread. cbv zeta in Hread.
  set (dfs := map from_records bodies) in *.
  set (cols := union_labels (map columns dfs)) in *.
  eexists. exists cols. split; [exact Hread|].
  split; [|split; [apply union_labels_NoDup|split]].
  - rewrite length_map. apply length_flat_map_rows.
  - apply List.Forall_forall. intros d (row & <- & Hrow)%in_map_iff.
    unfold keys. rewrite map_map. cbn [fst].
    change (map (fun x : string * value => fst x) (combine cols row))
      with (keys (combine cols row)).
    apply Routing.keys_combine.
    apply in_flat_map in Hrow as (df & _ & Hrow).
    apply in_map_iff in Hrow as (r & <- & _). now rewrite length_map.
  - apply List.Forall_forall. intros line Hline k Hk.
    apply in_concat in Hline as (body & Hbody & Hline).
    apply (union_labels_In (map columns dfs) (columns (from_records body))).
    + subst dfs. apply in_map, in_map, Hbody.
    + cbn [columns from_records].
      apply (union_labels_In (map keys body) (keys line)); [|exact Hk].
      now apply in_map.
Qed.

Section Run.

Variable check_bracketed_host : string -> bool.
Variable rejects : dict -> option write_error.
Variable client_error : list dict -> option (nat * exn).

Lemma separate_by_columns (staging beta production : list string)
    (df s b p : DataFrame) :
  separate_by check_bracketed_host staging beta production df = Ok (s, b, p) ->
  let cols := if mem "domain" (columns df) then columns df
              else columns df ++ ["domain"] in
  columns s = cols /\ columns b = cols /\ columns p = cols.
Proof.
  unfold separate_by.
  destruct (create_domain check_bracketed_host df) as [df0|e] eqn:Ed; [|discriminate].
  apply Classifier.create_domain_Ok in Ed as (domain & _ & ->). simpl.
  unfold domain_in. case_bool_decide; [|discriminate]. simpl.
  intros [= <- <- <-]. simpl. auto.
Qed.

(** X16. A batch in which two keys of the normalised frame coincide (as
    [$os] and [os] do after the stripping, or [userId] and [user_id] after
    the renaming) is never written to the store, whatever the run returns:
    [to_json] refuses each bucket frame and every load ends in
    [except Exception]. *)
Theorem repeated_label_batch_is_never_loaded (conn : string -> connectivity)
    (sources : list (option (list dict))) (data_dict : list dict) (w : world) :
  read_sources sources = Ok data_dict ->
  ~ NoDup (columns (clean_data data_dict)) ->
  db (fst (download_to_mongo check_bracketed_host rejects client_error conn sources w)) = db w.
Proof.
  intros Hsrc Hdup. unfold download_to_mongo, download_body. rewrite Hsrc. simpl.
  unfold process_and_upload_data.
  destruct (separate_environments check_bracketed_host (clean_data data_dict))
    as [[[s b] p]|e] eqn:Hsep; [|reflexivity].
  simpl. apply separate_by_columns in Hsep as (Hs & Hb & Hp).
  assert (~ NoDup (if mem "domain" (columns (clean_data data_dict))
                   then columns (clean_data data_dict)
                   else columns (clean_data data_dict) ++ ["domain"])) as Hdup'.
  { destruct (mem "domain" _); [exact Hdup|].
    intros [H _]%NoDup_app. exact (Hdup H). }
  cbv zeta in Hs, Hb, Hp. rewrite <- Hs in Hdup'.
  destruct (upload_to_mongo_repeated_label rejects client_error (conn "beta") b "beta"
              (fst (upload_to_mongo rejects client_error (conn "production") p "production"
                      (fst (upload_to_mongo rejects client_error (conn "staging") s "staging" w)))))
    as [_ ->]; [now rewrite Hb, <- Hs|].
  destruct (upload_to_mongo_repeated_label rejects client_error (conn "production") p "production"
              (fst (upload_to_mongo rejects client_error (conn "staging") s "staging" w)))
    as [_ ->]; [now rewrite Hp, <- Hs|].
  now destruct (upload_to_mongo_repeated_label rejects client_error (conn "staging") s "staging" w Hdup')
    as [_ ->].
Qed.

Lemma bind_Ok {A B} (a : A) (f : A -> result B) : (Ok a ≫= f) = f a.
Proof. reflexivity. Qed.

Lemma dict_get_map_values (f : value -> value) (k : string) (d : dict) :
  dict_get k (map (fun kv => (fst kv, f (snd kv))) d) = f <$> dict_get k d.
Proof.
  induction d as [|[k' v] d IH]; simpl; [reflexivity|].
  now destruct (String.eqb k k').
Qed.

Lemma bucket_records_domain (domains : list string) (df out : DataFrame)
    (records : list dict) (doc : dict) :
  domain_in domains df = Ok out -> to_json_records out = Ok records -> In doc records ->
  exists d, dict_get "domain" doc = Some (VStr d) /\ In d domains.
Proof.
  intros Hout Hrec Hdoc. unfold to_json_records in Hrec.
  case_bool_decide; [|discriminate]. injection Hrec as <-.
  apply in_map_iff in Hdoc as (row & <- & Hrow).
  apply (Classifier.domain_in_rows _ _ _ _ Hout) in Hrow as [_ Hin].
  assert (columns out = columns df) as Hcols.
  { unfold domain_in in Hout. case_bool_decide; [|discriminate]. now injection Hout as <-. }
  unfold labelled in *. rewrite Hcols, dict_get_map_values.
  destruct (dict_get "domain" (combine (columns df) row)) as [[| | | |d| |]|];
    simpl in Hin; try discriminate.
  exists d. split; [reflexivity | now apply Classifier.mem_In].
Qed.

(** X24. A run is idempotent on the store: after a run whose loads all
    connected, a second run on the same bodies leaves the store as the
    first run left it, however its connections go. *)
Theorem download_to_mongo_twice (conn2 : string -> connectivity)
    (sources : list (option (list dict))) (w : world) :
  let w1 := fst (download_to_mongo check_bracketed_host rejects client_error (fun _ => Connected)
                   sources w) in
  db (fst (download_to_mongo check_bracketed_host rejects client_error conn2 sources w1)) = db w1.
Proof.
  intros w1. subst w1. unfold download_to_mongo, download_body.
  destruct (read_sources sources) as [data_dict|e]; [rewrite !bind_Ok | reflexivity].
  unfold process_and_upload_data.
  destruct (separate_environments check_bracketed_host (clean_data data_dict))
    as [[[s b] p]|e]; [rewrite !bind_Ok | reflexivity]. cbn [fst snd].
  set (ws := fst (upload_to_mongo rejects client_error Connected s "staging" w)).
  set (wp := fst (upload_to_mongo rejects client_error Connected p "production" ws)).
  set (wb := fst (upload_to_mongo rejects client_error Connected b "beta" wp)).
  assert (db (fst (upload_to_mongo rejects client_error (conn2 "staging") s "staging" wb)) = db wb)
    as Hs.
  { apply (reload_changes_nothing rejects client_error _ s "staging" w). subst wb wp.
    now rewrite !upload_to_mongo_other by discriminate. }
  set (ws2 := fst (upload_to_mongo rejects client_error (conn2 "staging") s "staging" wb)) in *.
  assert (db (fst (upload_to_mongo rejects client_error (conn2 "production") p "production" ws2))
          = db ws2) as Hp.
  { apply (reload_changes_nothing rejects client_error _ p "production" ws). rewrite Hs. subst wb.
    now rewrite upload_to_mongo_other by discriminate. }
  set (wp2 := fst (upload_to_mongo rejects client_error (conn2 "production") p "production" ws2)) in *.
  assert (db (fst (upload_to_mongo rejects client_error (conn2 "beta") b "beta" wp2)) = db wp2) as Hb.
  { apply (reload_changes_nothing rejects client_error _ b "beta" wp). now rewrite Hp, Hs. }
  now rewrite Hb, Hp, Hs.
Qed.

(** X25. No document lands in the wrong collection: after the loads of a
    run, every document of a bucket's collection was there before or has a
    [domain] of that bucket's list. *)
Theorem stored_documents_have_their_buckets_domain (conn : string -> connectivity)
    (data_dict : list dict) (w w' : world) :
  process_and_upload_data check_bracketed_host rejects client_error conn data_dict w = Ok w' ->
  forall bucket domains,
    In (bucket, domains) [("staging", STAGING_DOMAINS);
                          ("production", PRODUCTION_DOMAINS);
                          ("beta", BETA_DOMAINS)] ->
    forall doc, In doc (docs (get_collection bucket w')) ->
      In doc (docs (get_collection bucket w)) \/
      exists d, dict_get "domain" doc = Some (VStr d) /\ In d domains.
Proof.
  unfold process_and_upload_data, separate_environments, separate_by.
  destruct (create_domain check_bracketed_host (clean_data data_dict)) as [df|e];
    [rewrite bind_Ok | discriminate].
  destruct (domain_in STAGING_DOMAINS df) as [s|e] eqn:Es;
    [rewrite bind_Ok | discriminate].
  destruct (domain_in BETA_DOMAINS df) as [b|e] eqn:Eb; [rewrite bind_Ok | discriminate].
  destruct (domain_in PRODUCTION_DOMAINS df) as [p|e] eqn:Ep;
    [rewrite !bind_Ok | discriminate].
  intros [= <-].
  set (ws := fst (upload_to_mongo rejects client_error (conn "staging") s "staging" w)).
  set (wp := fst (upload_to_mongo rejects client_error (conn "production") p "production" ws)).
  set (wb := fst (upload_to_mongo rejects client_error (conn "beta") b "beta" wp)).
  intros bucket domains [[= <- <-]|[[= <- <-]|[[= <- <-]|[]]]] doc Hdoc.
  - assert (get_collection "staging" wb = get_collection "staging" ws) as Hget.
    { apply get_collection_db. subst wb wp.
      now rewrite !upload_to_mongo_other by discriminate. }
    rewrite Hget in Hdoc. subst ws.
    apply upload_to_mongo_docs in Hdoc as [H|(records & Hrec & Hin)]; [now left|].
    right. exact (bucket_records_domain _ _ _ _ _ Es Hrec Hin).
  - assert (get_collection "production" wb = get_collection "production" wp) as Hget.
    { apply get_collection_db. subst wb.
      now rewrite upload_to_mongo_other by discriminate. }
    rewrite Hget in Hdoc. subst wp.
    apply upload_to_mongo_docs in Hdoc as [H|(records & Hrec & Hin)].
    + left. replace (get_collection "production" w) with (get_collection "production" ws);
        [exact H|]. apply get_collection_db. subst ws.
      now rewrite upload_to_mongo_other by discriminate.
    + right. exact (bucket_records_domain _ _ _ _ _ Ep Hrec Hin).
  - subst wb.
    apply upload_to_mongo_docs in Hdoc as [H|(records & Hrec & Hin)].
    + left. replace (get_collection "beta" w) with (get_collection "beta" wp);
        [exact H|]. apply get_collection_db. subst wp ws.
      now rewrite !upload_to_mongo_other by discriminate.
    + right. exact (bucket_records_domain _ _ _ _ _ Eb Hrec Hin).
Qed.

(** X29. A day whose bodies hold no line fails the run before any load: the
    frame of no records has no rows and no columns, the assignment of the
    domain column raises [ValueError], and the run returns the failure value
    with the store as it was. *)
Theorem empty_batch_fails_run (conn : string -> connectivity)
    (sources : list (option (list dict))) (w : world) :
  read_sources sources = Ok [] ->
  separate_environments check_bracketed_host (clean_data [])
  = Raise (ValueError "Cannot set a DataFrame without columns to the column domain") /\
  download_to_mongo check_bracketed_host rejects client_error conn sources w
  = ({| db := db w;
        log := log w ++ [(ERROR, "Error while handling lambda event"); (ERROR, "None")] |},
     {| statusCode := 500; message := "failed" |}).
Proof.
  intros Hsrc. split; [reflexivity|].
  unfold download_to_mongo, download_body. rewrite Hsrc, bind_Ok.
  unfold process_and_upload_data.
  change (separate_environments check_bracketed_host (clean_data []))
    with (@Raise (DataFrame * DataFrame * DataFrame)
            (ValueError "Cannot set a DataFrame without columns to the column domain")).
  simpl. unfold logging. simpl. now rewrite <- app_assoc.
Qed.

End Run.

(** X25, at a run that loads a staging and a production record into an
    empty store. *)
Lemma stored_documents_have_their_buckets_domain_witness :
  let event := fun id url : string =>
                 [("$insert_id", VStr id);
                  ("event_properties", VDict [("url", VStr url)])] in
  let data_dict := [event "s1" "https://master.mwstream.com/a";
                    event "p1" "https://studio.masterwizr.com/x"] in
  let accept := fun _ : dict => @None write_error in
  let w := {| db := ∅; log := [] |} in
  exists w',
    process_and_upload_data (fun _ => true) accept (fun _ => None) (fun _ => Connected) data_dict w = Ok w' /\
    forall bucket domains,
      In (bucket, domains) [("staging", STAGING_DOMAINS);
                            ("production", PRODUCTION_DOMAINS);
                            ("beta", BETA_DOMAINS)] ->
      forall doc, In doc (docs (get_collection bucket w')) ->
        In doc (docs (get_collection bucket w)) \/
        exists d, dict_get "domain" doc = Some (VStr d) /\ In d domains.
Proof.
  intros event data_dict accept w.
  destruct (process_and_upload_data (fun _ => true) accept (fun _ => None) (fun _ => Connected) data_dict w)
    as [w'|e] eqn:Hrun; [|discriminate Hrun].
  exists w'. split; [reflexivity|].
  exact (stored_documents_have_their_buckets_domain (fun _ => true) accept (fun _ => None)
           (fun _ => Connected) data_dict w w' Hrun).
Defined.

(** X29, at a day with one object that has no line. *)
Lemma empty_batch_fails_run_witness :
  let sources := [Some []] in
  let w := {| db := ∅; log := [] |} in
  read_sources sources = Ok [] /\
  (separate_environments (fun _ => true) (clean_data [])
   = Raise (ValueError "Cannot set a DataFrame without columns to the column domain") /\
   download_to_mongo (fun _ => true) (fun _ => None) (fun _ => None) (fun _ => Connected)
     sources w
   = ({| db := db w;
         log := log w ++ [(ERROR, "Error while handling lambda event"); (ERROR, "None")] |},
      {| statusCode := 500; message := "failed" |})).
Proof.
  intros sources w.
  assert (read_sources sources = Ok []) as Hsrc by reflexivity.
  split; [exact Hsrc|].
  exact (empty_batch_fails_run (fun _ => true) (fun _ => None) (fun _ => None)
           (fun _ => Connected) sources w Hsrc).
Defined.

(** X15, at two bodies with three lines and different keys. *)
Lemma read_sources_keeps_every_line_witness :
  let bodies := [[[("a", VNum 1)]; [("b", VNum 2)]]; [[("a", VNum 3); ("c", VNull)]]] in
  bodies <> [] /\
  exists data_dict cols,
    read_sources (map Some bodies) = Ok data_dict /\
    length data_dict = length (List.concat bodies) /\
    NoDup cols /\
    Forall (fun d => keys d = cols) data_dict /\
    Forall (fun line => forall k, In k (keys line) -> In k cols) (List.concat bodies).
Proof.
  intros bodies.
  assert (bodies <> []) as Hne by discriminate.
  split; [exact Hne|]. exact (read_sources_keeps_every_line bodies Hne).
Defined.

(** X16, at a record with the keys [$os] and [os]: the run returns the
    success value and the store stays empty. *)
Lemma repeated_label_batch_is_never_loaded_witness :
  let raw := [("$insert_id", VStr "p1"); ("$os", VStr "ios"); ("os", VStr "iOS 14");
              ("event_properties",
               VDict [("url", VStr "https://studio.masterwizr.com/x")])] in
  let accept := fun _ : dict => @None write_error in
  let w := {| db := ∅; log := [] |} in
  let run := download_to_mongo (fun _ => true) accept (fun _ => None) (fun _ => Connected) [Some [raw]] w in
  read_sources [Some [raw]] = Ok [raw] /\
  ~ NoDup (columns (clean_data [raw])) /\
  snd run = {| statusCode := 200; message := "success" |} /\
  db (fst run) = db w.
Proof.
  intros raw accept w run.
  assert (read_sources [Some [raw]] = Ok [raw]) as Hsrc by reflexivity.
  assert (~ NoDup (columns (clean_data [raw]))) as Hdup.
  { intros H. apply (bool_decide_eq_true_2 _) in H. discriminate H. }
  split; [exact Hsrc|]. split; [exact Hdup|]. split; [reflexivity|].
  exact (repeated_label_batch_is_never_loaded (fun _ => true) accept (fun _ => None) (fun _ => Connected)
           [Some [raw]] [raw] w Hsrc Hdup).
Defined.

End Batch.

(** ** The upload script *)

Module UploadFacts.
Import Str Text Loader Upload.

Lemma append_cons (a : ascii) (x y : string) :
  String a x +:+ y = String a (x +:+ y).
Proof. reflexivity. Qed.

Lemma append_empty (y : string) : EmptyString +:+ y = y.
Proof. reflexivity. Qed.

Lemma endswith_length (suffix s : string) :
  endswith suffix s = true -> String.length suffix <= String.length s.
Proof.
  induction s as [|a s IH]; cbn [endswith].
  - rewrite orb_false_r. now intros <-%String.eqb_eq.
  - intros [<-%String.eqb_eq|H]%orb_true_iff; [reflexivity|].
    specialize (IH H). simpl. lia.
Qed.

Lemma endswith_drop_last (suffix s : string) :
  endswith suffix s = true ->
  drop_last (String.length suffix) s +:+ suffix = s.
Proof.
  unfold drop_last. induction s as [|a s IH]; cbn [endswith].
  - rewrite orb_false_r. now intros <-%String.eqb_eq.
  - destruct (String.eqb_spec (String a s) suffix) as [<-|Hne].
    + intros _. now rewrite Nat.sub_diag.
    + cbn [orb]. intros H. pose proof (endswith_length _ _ H) as Hlen.
      cbn [String.length].
      replace (S (String.length s) - String.length suffix)
        with (S (String.length s - String.length suffix)) by lia.
      cbn [substring]. rewrite append_cons. f_equal. exact (IH H).
Qed.

Lemma endswith_append (x suffix : string) : endswith suffix (x +:+ suffix) = true.
Proof.
  induction x as [|a x IH].
  - rewrite append_empty. destruct suffix; cbn [endswith]; now rewrite String.eqb_refl.
  - rewrite append_cons. cbn [endswith]. rewrite IH. apply orb_true_r.
Qed.

Lemma length_append (x y : string) :
  String.length (x +:+ y) = String.length x + String.length y.
Proof.
  induction x as [|a x IH]; [reflexivity|].
  rewrite append_cons. simpl. now rewrite IH.
Qed.

Lemma drop_last_append (x suffix : string) :
  drop_last (String.length suffix) (x +:+ suffix) = x.
Proof.
  unfold drop_last. rewrite length_append.
  replace (String.length x + String.length suffix - String.length suffix)
    with (String.length x) by lia.
  induction x as [|a x IH].
  - rewrite append_empty. now destruct suffix.
  - rewrite append_cons. simpl. now rewrite IH.
Qed.

Lemma append_inj (x a b : string) : x +:+ a = x +:+ b -> a = b.
Proof.
  induction x as [|c x IH]; [now rewrite !append_empty|].
  rewrite !append_cons. intros [= H]. now apply IH.
Qed.

Lemma s3_key_inj (a b : string) : s3_key a = s3_key b -> a = b.
Proof. apply append_inj. Qed.

(** X17. The name under which an archive is unpacked is the archive's name
    without its [.gz]: putting the suffix back gives the archive's name, so
    two archives are never unpacked into the same file. *)
Theorem gz_name_round_trip (filename : string) :
  endswith ".gz" filename = true ->
  drop_last 3 filename +:+ ".gz" = filename.
Proof. apply (endswith_drop_last ".gz"). Qed.

Lemma gz_name_inj (a b : string) :
  endswith ".gz" a = true -> endswith ".gz" b = true ->
  drop_last 3 a = drop_last 3 b -> a = b.
Proof.
  intros Ha Hb Heq.
  rewrite <- (endswith_drop_last ".gz" a Ha), <- (endswith_drop_last ".gz" b Hb).
  simpl String.length. now rewrite Heq.
Qed.

Section Machine.

Variable listdir : gmap string bytes -> list string.
Variable gunzip : bytes -> bytes * bool.
Variable put_fails : string -> bool.

(** What the loop of [upload_files_s3] can do to a key. *)
Lemma upload_files_key (listing : list string) (directory s3 : gmap string bytes)
    (key : string) :
  let s3' := fst (upload_files put_fails listing directory s3) in
  s3' !! key = s3 !! key \/
  exists filename data,
    In filename listing /\ endswith ".json" filename = true /\
    directory !! filename = Some data /\ key = s3_key filename /\
    s3' !! key = Some data.
Proof.
  revert s3. induction listing as [|filename listing IH]; intros s3; simpl; [now left|].
  destruct (endswith ".json" filename) eqn:Ej; simpl.
  - destruct (directory !! filename) as [data|] eqn:Ed; [|now left].
    destruct (put_fails (s3_key filename)); [now left|].
    destruct (IH (<[s3_key filename := data]> s3)) as [H|(f & d & Hin & Hj & Hd & Hk & H)].
    + destruct (decide (key = s3_key filename)) as [->|Hne].
      * right. exists filename, data. rewrite H, lookup_insert_eq. auto.
      * left. rewrite H. now apply lookup_insert_ne.
    + right. exists f, d. auto.
  - destruct (IH s3) as [H|(f & d & Hin & Hj & Hd & Hk & H)]; [now left|].
    right. exists f, d. auto.
Qed.

(** When no upload raises, the loop runs to its end and every listed [.json]
    file is in the bucket. *)
Lemma upload_files_done (listing : list string) (directory s3 : gmap string bytes) :
  (forall key, put_fails key = false) ->
  (forall filename, In filename listing -> is_Some (directory !! filename)) ->
  snd (upload_files put_fails listing directory s3) = true /\
  forall filename data,
    In filename listing -> endswith ".json" filename = true ->
    directory !! filename = Some data ->
    fst (upload_files put_fails listing directory s3) !! s3_key filename = Some data.
Proof.
  intros Hput. revert s3. induction listing as [|f listing IH]; intros s3 Hdir; simpl.
  - split; [reflexivity | intros ? ? []].
  - assert (forall filename, In filename listing -> is_Some (directory !! filename))
      as Hdir' by (intros; apply Hdir; now right).
    destruct (endswith ".json" f) eqn:Ej; simpl.
    + destruct (Hdir f (or_introl eq_refl)) as [data Ed]. rewrite Ed, Hput.
      destruct (IH (<[s3_key f := data]> s3) Hdir') as [Hdone Hin].
      split; [exact Hdone|]. intros filename data' [<-|Hl] Hj Hd; [|now apply Hin].
      rewrite Ed in Hd. injection Hd as <-.
      destruct (upload_files_key listing directory (<[s3_key f := data]> s3) (s3_key f))
        as [H|(f' & d' & _ & _ & Hd' & Hk & H)].
      * cbv zeta in H. now rewrite H, lookup_insert_eq.
      * apply s3_key_inj in Hk as <-. cbv zeta in H. congruence.
    + destruct (IH s3 Hdir') as [Hdone Hin]. split; [exact Hdone|].
      intros filename data [<-|Hl] Hj Hd; [congruence | now apply Hin].
Qed.

(** What the extraction loop can do to a file of the extracted directory. *)
Lemma extract_files_name (listing : list string) (project extracted : gmap string bytes)
    (out : string) :
  let extracted' := fst (extract_files gunzip listing project extracted) in
  extracted' !! out = extracted !! out \/
  exists filename gz,
    In filename listing /\ endswith ".gz" filename = true /\
    project !! filename = Some gz /\ out = drop_last 3 filename /\
    extracted' !! out = Some (fst (gunzip gz)).
Proof.
  revert extracted. induction listing as [|f listing IH]; intros extracted; simpl;
    [now left|].
  destruct (endswith ".gz" f) eqn:Eg; simpl.
  - destruct (project !! f) as [gz|] eqn:Ep; [|now left].
    destruct (String.eqb (drop_last 3 f) ""); [now left|].
    destruct (gunzip gz) as [data complete] eqn:Egz.
    assert (data = fst (gunzip gz)) as Hdata by now rewrite Egz.
    destruct complete.
    + destruct (IH (<[drop_last 3 f := data]> extracted))
        as [H|(f' & gz' & Hin & Hg & Hp & Hk & H)].
      * destruct (decide (out = drop_last 3 f)) as [->|Hne].
        -- right. exists f, gz. rewrite H, lookup_insert_eq, Hdata. auto.
        -- left. rewrite H. now apply lookup_insert_ne.
      * right. exists f', gz'. auto.
    + simpl. destruct (decide (out = drop_last 3 f)) as [->|Hne].
      * right. exists f, gz. rewrite lookup_insert_eq, Hdata. auto.
      * left. now apply lookup_insert_ne.
  - destruct (IH extracted) as [H|(f' & gz' & Hin & Hg & Hp & Hk & H)]; [now left|].
    right. exists f', gz'. auto.
Qed.

Lemma extract_files_done (listing : list string) (project extracted : gmap string bytes) :
  (forall filename, In filename listing -> endswith ".gz" filename = true ->
     exists gz, project !! filename = Some gz /\ snd (gunzip gz) = true /\
                drop_last 3 filename <> "") ->
  snd (extract_files gunzip listing project extracted) = true /\
  forall filename gz,
    In filename listing -> endswith ".gz" filename = true ->
    project !! filename = Some gz ->
    fst (extract_files gunzip listing project extracted) !! drop_last 3 filename
    = Some (fst (gunzip gz)).
Proof.
  revert extracted. induction listing as [|f listing IH]; intros extracted Hok; simpl.
  - split; [reflexivity | intros ? ? []].
  - assert (forall filename, In filename listing -> endswith ".gz" filename = true ->
              exists gz, project !! filename = Some gz /\ snd (gunzip gz) = true /\
                         drop_last 3 filename <> "") as Hok'
      by (intros; apply Hok; [now right | assumption]).
    destruct (endswith ".gz" f) eqn:Eg; simpl.
    + destruct (Hok f (or_introl eq_refl) Eg) as (gz & Ep & Hgz & Hname).
      rewrite Ep. apply String.eqb_neq in Hname. rewrite Hname.
      destruct (gunzip gz) as [data complete] eqn:Egz. simpl in Hgz. subst complete.
      destruct (IH (<[drop_last 3 f := data]> extracted) Hok') as [Hdone Hin].
      split; [exact Hdone|]. intros filename gz' [<-|Hl] Hg Hp; [|now apply Hin].
      rewrite Ep in Hp. injection Hp as <-. rewrite Egz. simpl.
      destruct (extract_files_name listing project (<[drop_last 3 f := data]> extracted)
                  (drop_last 3 f)) as [H|(f' & gz' & _ & Hg' & Hp' & Hk & H)].
      * cbv zeta in H. now rewrite H, lookup_insert_eq.
      * apply gz_name_inj in Hk; [|assumption..]. subst f'. cbv zeta in H.
        rewrite H. rewrite Ep in Hp'. injection Hp' as <-. now rewrite Egz.
    + destruct (IH extracted Hok') as [Hdone Hin]. split; [exact Hdone|].
      intros filename gz [<-|Hl] Hg Hp; [congruence | now apply Hin].
Qed.

Lemma extract_files_fails (listing : list string) (project extracted : gmap string bytes)
    (filename : string) (gz : bytes) :
  In filename listing -> endswith ".gz" filename = true ->
  project !! filename = Some gz -> snd (gunzip gz) = false ->
  snd (extract_files gunzip listing project extracted) = false.
Proof.
  intros Hin Hg Hp Hgz. revert extracted.
  induction listing as [|f listing IH]; intros extracted; [destruct Hin|]. simpl.
  destruct (endswith ".gz" f) eqn:Eg; simpl.
  - destruct (project !! f) as [gz'|] eqn:Ep; [|reflexivity].
    destruct (String.eqb (drop_last 3 f) ""); [reflexivity|].
    destruct (gunzip gz') as [data complete] eqn:Egz'. destruct complete; [|reflexivity].
    destruct Hin as [->|Hin]; [|now apply IH].
    rewrite Ep in Hp. injection Hp as ->. rewrite Egz' in Hgz. discriminate.
  - destruct Hin as [->|Hin]; [congruence | now apply IH].
Qed.

(** [os.listdir] returns the names of the directory, whatever their order. *)
Hypothesis listdir_names :
  forall (directory : gmap string bytes) (filename : string),
    In filename (listdir directory) <-> is_Some (directory !! filename).

Lemma upload_files_s3_done (directory s3 : gmap string bytes) :
  (forall key, put_fails key = false) ->
  snd (upload_files_s3 listdir put_fails directory s3) = true /\
  forall filename data,
    directory !! filename = Some data -> endswith ".json" filename = true ->
    fst (upload_files_s3 listdir put_fails directory s3) !! s3_key filename = Some data.
Proof.
  intros Hput. unfold upload_files_s3.
  destruct (upload_files_done (listdir directory) directory s3 Hput)
    as [Hdone Hin]; [intros f Hf; now apply listdir_names|].
  split; [exact Hdone|]. intros filename data Hd Hj.
  apply Hin; [apply listdir_names; eauto | exact Hj | exact Hd].
Qed.

(** X18. When no upload raises, [upload_files_s3] runs to its end and every
    [.json] file of the directory is in the bucket under
    [amplitude/<file name>], with the file's content. *)
Theorem upload_files_s3_uploads_json_files (directory s3 : gmap string bytes) :
  (forall key, put_fails key = false) ->
  snd (upload_files_s3 listdir put_fails directory s3) = true /\
  forall filename data,
    directory !! filename = Some data -> endswith ".json" filename = true ->
    fst (upload_files_s3 listdir put_fails directory s3) !! s3_key filename = Some data.
Proof. apply upload_files_s3_done. Qed.

(** X19. Whatever raises, [upload_files_s3] changes no key of the bucket but
    [amplitude/<file name>] for a [.json] file of the directory, and what it
    puts there is the file's content; nothing is ever deleted. *)
Theorem upload_files_s3_touches_only_json_keys (directory s3 : gmap string bytes)
    (key : string) :
  let s3' := fst (upload_files_s3 listdir put_fails directory s3) in
  s3' !! key = s3 !! key \/
  exists filename data,
    endswith ".json" filename = true /\ directory !! filename = Some data /\
    key = s3_key filename /\ s3' !! key = Some data.
Proof.
  intros s3'. subst s3'. unfold upload_files_s3.
  destruct (upload_files_key (listdir directory) directory s3 key)
    as [H|(f & d & _ & Hj & Hd & Hk & H)]; [now left|].
  right. exists f, d. auto.
Qed.

Lemma archives_extract (project : gmap string bytes) :
  (forall filename gz, project !! filename = Some gz -> endswith ".gz" filename = true ->
     snd (gunzip gz) = true /\ filename <> ".gz") ->
  forall filename, In filename (listdir project) -> endswith ".gz" filename = true ->
    exists gz, project !! filename = Some gz /\ snd (gunzip gz) = true /\
               drop_last 3 filename <> "".
Proof.
  intros Hok filename [gz Hgz]%listdir_names Hg.
  destruct (Hok filename gz Hgz Hg) as [Hc Hname].
  exists gz. repeat split; [exact Hgz | exact Hc|].
  intros Hempty. apply Hname.
  rewrite <- (endswith_drop_last ".gz" filename Hg). simpl String.length.
  now rewrite Hempty.
Qed.

Lemma append_assoc (x y z : string) : (x +:+ y) +:+ z = x +:+ (y +:+ z).
Proof.
  induction x as [|a x IH]; [reflexivity|]. now rewrite !append_cons, IH.
Qed.

(** X20. When every archive of the project directory unpacks and no upload
    raises, [upload_to_s3] returns the success value and the content of every
    archive [<stem>.json.gz] is in the bucket under [amplitude/<stem>.json]. *)
Theorem upload_to_s3_uploads_archives (project : gmap string bytes) (m : machine) :
  (forall key, put_fails key = false) ->
  (forall filename gz, project !! filename = Some gz -> endswith ".gz" filename = true ->
     snd (gunzip gz) = true /\ filename <> ".gz") ->
  let run := upload_to_s3 listdir gunzip put_fails (Some project) m in
  snd run = {| statusCode := 200; message := "success" |} /\
  forall stem gz,
    project !! (stem +:+ ".json.gz") = Some gz ->
    bucket (fst run) !! s3_key (stem +:+ ".json") = Some (fst (gunzip gz)).
Proof.
  intros Hput Hok run. subst run. unfold upload_to_s3.
  destruct (extract_files_done (listdir project) project (extracted_json_data m)
              (archives_extract project Hok)) as [Hdone Hin].
  destruct (extract_files gunzip (listdir project) project (extracted_json_data m))
    as [extracted complete]. simpl in Hdone, Hin. subst complete.
  destruct (upload_files_s3_done extracted (bucket m) Hput) as [Hup Hs3].
  destruct (upload_files_s3 listdir put_fails extracted (bucket m)) as [s3 uploaded].
  simpl in Hup, Hs3. subst uploaded. split; [reflexivity|].
  intros stem gz Hgz. simpl. apply Hs3; [|apply (endswith_append stem ".json")].
  assert (stem +:+ ".json.gz" = (stem +:+ ".json") +:+ ".gz") as Hname
    by now rewrite append_assoc.
  rewrite <- (drop_last_append (stem +:+ ".json") ".gz"), <- Hname.
  apply Hin; [apply listdir_names; eauto | | exact Hgz].
  rewrite Hname. apply endswith_append.
Qed.

(** X21. The directory of extracted files is never emptied: a [.json] file
    that an earlier run left there, and that no archive of this run
    replaces, is uploaded again by every run that gets to the upload. *)
Theorem upload_to_s3_uploads_leftovers (project : gmap string bytes) (m : machine)
    (filename : string) (data : bytes) :
  (forall key, put_fails key = false) ->
  (forall archive gz, project !! archive = Some gz -> endswith ".gz" archive = true ->
     snd (gunzip gz) = true /\ archive <> ".gz") ->
  extracted_json_data m !! filename = Some data ->
  endswith ".json" filename = true ->
  project !! (filename +:+ ".gz") = None ->
  bucket (fst (upload_to_s3 listdir gunzip put_fails (Some project) m)) !! s3_key filename
  = Some data.
Proof.
  intros Hput Hok Hleft Hj Hnew. unfold upload_to_s3.
  destruct (extract_files_done (listdir project) project (extracted_json_data m)
              (archives_extract project Hok)) as [Hdone _].
  pose proof (extract_files_name (listdir project) project (extracted_json_data m)
                filename) as Hkept. cbv zeta in Hkept.
  destruct (extract_files gunzip (listdir project) project (extracted_json_data m))
    as [extracted complete]. simpl in Hdone, Hkept. subst complete.
  destruct (upload_files_s3_done extracted (bucket m) Hput) as [_ Hs3].
  destruct (upload_files_s3 listdir put_fails extracted (bucket m)) as [s3 uploaded].
  simpl in *. apply Hs3; [|exact Hj].
  destruct Hkept as [->|(archive & gz & _ & Hg & Hp & Hk & _)]; [exact Hleft|].
  exfalso. rewrite Hk in Hnew.
  pose proof (endswith_drop_last ".gz" archive Hg) as Hname. simpl String.length in Hname.
  rewrite Hname in Hnew. congruence.
Qed.

(** X22. When an archive of the project directory does not unpack,
    [upload_to_s3] returns the failure value and nothing is uploaded: the
    bucket is as it was. *)
Theorem upload_to_s3_bad_archive (project : gmap string bytes) (m : machine)
    (filename : string) (gz : bytes) :
  project !! filename = Some gz ->
  endswith ".gz" filename = true ->
  snd (gunzip gz) = false ->
  let run := upload_to_s3 listdir gunzip put_fails (Some project) m in
  snd run = {| statusCode := 500; message := "Failed" |} /\
  bucket (fst run) = bucket m.
Proof.
  intros Hp Hg Hgz run. subst run. unfold upload_to_s3.
  assert (In filename (listdir project)) as Hin by (apply listdir_names; eauto).
  pose proof (extract_files_fails (listdir project) project (extracted_json_data m)
                filename gz Hin Hg Hp Hgz) as Hfail.
  destruct (extract_files gunzip (listdir project) project (extracted_json_data m))
    as [extracted complete]. simpl in Hfail. subst complete. split; reflexivity.
Qed.

Lemma extract_files_fixed (listing : list string) (project extracted : gmap string bytes) :
  (forall filename, In filename listing -> endswith ".gz" filename = true ->
     exists gz, project !! filename = Some gz /\ snd (gunzip gz) = true /\
                drop_last 3 filename <> "" /\
                extracted !! drop_last 3 filename = Some (fst (gunzip gz))) ->
  extract_files gunzip listing project extracted = (extracted, true).
Proof.
  induction listing as [|f listing IH]; intros Hok; simpl; [reflexivity|].
  assert (extract_files gunzip listing project extracted = (extracted, true)) as Hrest
    by (apply IH; intros; apply Hok; [now right | assumption]).
  destruct (endswith ".gz" f) eqn:Eg; simpl; [|exact Hrest].
  destruct (Hok f (or_introl eq_refl) Eg) as (gz & Ep & Hgz & Hname & Hthere).
  rewrite Ep. apply String.eqb_neq in Hname. rewrite Hname.
  destruct (gunzip gz) as [data complete]. simpl in Hgz, Hthere. subst complete.
  now rewrite (fin_maps.insert_id _ _ _ Hthere).
Qed.

Lemma upload_files_fixed (listing : list string) (directory s3 : gmap string bytes) :
  (forall key, put_fails key = false) ->
  (forall filename, In filename listing -> endswith ".json" filename = true ->
     exists data, directory !! filename = Some data /\
                  s3 !! s3_key filename = Some data) ->
  upload_files put_fails listing directory s3 = (s3, true).
Proof.
  intros Hput. induction listing as [|f listing IH]; intros Hok; simpl; [reflexivity|].
  assert (upload_files put_fails listing directory s3 = (s3, true)) as Hrest
    by (apply IH; intros; apply Hok; [now right | assumption]).
  destruct (endswith ".json" f) eqn:Ej; simpl; [|exact Hrest].
  destruct (Hok f (or_introl eq_refl) Ej) as (data & Ed & Hthere).
  now rewrite Ed, Hput, (fin_maps.insert_id _ _ _ Hthere).
Qed.

(** X27. The upload is idempotent: when every archive unpacks and no upload
    raises, a second [upload_to_s3] over the same project directory returns
    the success value again and leaves the extracted files and the bucket as
    the first left them. *)
Theorem upload_to_s3_twice (project : gmap string bytes) (m : machine) :
  (forall key, put_fails key = false) ->
  (forall filename gz, project !! filename = Some gz -> endswith ".gz" filename = true ->
     snd (gunzip gz) = true /\ filename <> ".gz") ->
  let m1 := fst (upload_to_s3 listdir gunzip put_fails (Some project) m) in
  upload_to_s3 listdir gunzip put_fails (Some project) m1
  = (m1, {| statusCode := 200; message := "success" |}).
Proof.
  intros Hput Hok m1. subst m1. unfold upload_to_s3.
  pose proof (archives_extract project Hok) as Hall.
  destruct (extract_files_done (listdir project) project (extracted_json_data m) Hall)
    as [Hdone Hin].
  destruct (extract_files gunzip (listdir project) project (extracted_json_data m))
    as [extracted complete]. simpl in Hdone, Hin. subst complete.
  destruct (upload_files_s3_done extracted (bucket m) Hput) as [Hup Hs3].
  destruct (upload_files_s3 listdir put_fails extracted (bucket m)) as [s3 uploaded] eqn:Eup.
  simpl in Hup, Hs3. subst uploaded. cbn [fst extracted_json_data bucket].
  rewrite (extract_files_fixed (listdir project) project extracted).
  - unfold upload_files_s3.
    rewrite (upload_files_fixed (listdir extracted) extracted s3 Hput); [reflexivity|].
    intros f [data Hd]%listdir_names Hj. exists data. split; [exact Hd|].
    now apply Hs3.
  - intros f Hf Hg. destruct (Hall f Hf Hg) as (gz & Hp & Hgz & Hname).
    exists gz. repeat split; try assumption. now apply Hin.
Qed.

End Machine.

Lemma strip_prefix_append (x y : string) : strip_prefix x (x +:+ y) = Some y.
Proof.
  induction x as [|a x IH]; [now destruct y|].
  rewrite append_cons. simpl. now rewrite Ascii.eqb_refl.
Qed.

(** X23. The two scripts agree on the layout of the bucket: the key that
    [upload_files_s3] gives a file named [<path>_<date><rest>] matches the
    prefix and the delimiter with which [download_to_mongo] lists the objects
    of that path and date, exactly when [rest] has no [/]. *)
Theorem uploaded_file_is_listed (amplitude_data_path date_today rest : string) :
  listed (listing_prefix amplitude_data_path date_today)
         (s3_key (amplitude_data_path +:+ "_" +:+ date_today +:+ rest))
  = negb (contains "/" rest).
Proof.
  unfold listed, listing_prefix, s3_key.
  replace ("amplitude/" +:+ amplitude_data_path +:+ "_" +:+ date_today +:+ rest)
    with (("amplitude/" +:+ amplitude_data_path +:+ "_" +:+ date_today) +:+ rest).
  - now rewrite strip_prefix_append.
  - now rewrite !append_assoc.
Qed.

Lemma listdir_entries_names (directory : gmap string bytes) (filename : string) :
  In filename (listdir_entries directory) <-> is_Some (directory !! filename).
Proof.
  unfold listdir_entries. rewrite in_map_iff. split.
  - intros ([f data] & <- & Hin). apply list_elem_of_In, elem_of_map_to_list in Hin.
    simpl. eauto.
  - intros [data Hd]. exists (filename, data). split; [reflexivity|].
    now apply list_elem_of_In, elem_of_map_to_list.
Qed.

(** X17, at the name of an hourly archive of the export. *)
Lemma gz_name_round_trip_witness :
  endswith ".gz" "187520_2021-05-07_10#243.json.gz" = true /\
  drop_last 3 "187520_2021-05-07_10#243.json.gz" +:+ ".gz"
  = "187520_2021-05-07_10#243.json.gz".
Proof.
  split; [reflexivity|].
  exact (gz_name_round_trip "187520_2021-05-07_10#243.json.gz" eq_refl).
Defined.

(** X18, at a directory with a [.json] file and a file of another kind. *)
Lemma upload_files_s3_uploads_json_files_witness :
  let directory : gmap string bytes :=
    {["a.json" := [Byte.x7b; Byte.x7d]; "notes.txt" := [Byte.x21]]} in
  let s3 : gmap string bytes := ∅ in
  let never := fun _ : string => false in
  (forall key, never key = false) /\
  (snd (upload_files_s3 listdir_entries never directory s3) = true /\
   forall filename data,
     directory !! filename = Some data -> endswith ".json" filename = true ->
     fst (upload_files_s3 listdir_entries never directory s3) !! s3_key filename
     = Some data).
Proof.
  intros directory s3 never.
  assert (forall key, never key = false) as Hput by reflexivity.
  split; [exact Hput|].
  exact (upload_files_s3_uploads_json_files listdir_entries never listdir_entries_names
           directory s3 Hput).
Defined.

(** X20, at a project directory with one archive; unpacking is the identity
    here. *)
Lemma upload_to_s3_uploads_archives_witness :
  let project : gmap string bytes := {["e.json.gz" := [Byte.x7b; Byte.x7d]]} in
  let m := {| extracted_json_data := ∅; bucket := ∅ |} in
  let unpack := fun data : bytes => (data, true) in
  let never := fun _ : string => false in
  let run := upload_to_s3 listdir_entries unpack never (Some project) m in
  (forall key, never key = false) /\
  (forall filename gz, project !! filename = Some gz -> endswith ".gz" filename = true ->
     snd (unpack gz) = true /\ filename <> ".gz") /\
  (snd run = {| statusCode := 200; message := "success" |} /\
   forall stem gz,
     project !! (stem +:+ ".json.gz") = Some gz ->
     bucket (fst run) !! s3_key (stem +:+ ".json") = Some (fst (unpack gz))).
Proof.
  intros project m unpack never run.
  assert (forall key, never key = false) as Hput by reflexivity.
  assert (forall filename gz, project !! filename = Some gz ->
            endswith ".gz" filename = true ->
            snd (unpack gz) = true /\ filename <> ".gz") as Hok.
  { intros filename gz [<- _]%lookup_singleton_Some _. split; [reflexivity | discriminate]. }
  split; [exact Hput|]. split; [exact Hok|].
  exact (upload_to_s3_uploads_archives listdir_entries unpack never listdir_entries_names
           project m Hput Hok).
Defined.

(** X21, at a file that a run of the day before left behind. *)
Lemma upload_to_s3_uploads_leftovers_witness :
  let project : gmap string bytes := {["e.json.gz" := [Byte.x7b; Byte.x7d]]} in
  let m := {| extracted_json_data := {["old.json" := [Byte.x5b; Byte.x5d]]};
              bucket := ∅ |} in
  let unpack := fun data : bytes => (data, true) in
  let never := fun _ : string => false in
  (forall key, never key = false) /\
  (forall archive gz, project !! archive = Some gz -> endswith ".gz" archive = true ->
     snd (unpack gz) = true /\ archive <> ".gz") /\
  extracted_json_data m !! "old.json" = Some [Byte.x5b; Byte.x5d] /\
  endswith ".json" "old.json" = true /\
  project !! ("old.json" +:+ ".gz") = None /\
  bucket (fst (upload_to_s3 listdir_entries unpack never (Some project) m))
    !! s3_key "old.json" = Some [Byte.x5b; Byte.x5d].
Proof.
  intros project m unpack never.
  assert (forall key, never key = false) as Hput by reflexivity.
  assert (forall archive gz, project !! archive = Some gz ->
            endswith ".gz" archive = true ->
            snd (unpack gz) = true /\ archive <> ".gz") as Hok.
  { intros archive gz [<- _]%lookup_singleton_Some _. split; [reflexivity | discriminate]. }
  assert (extracted_json_data m !! "old.json" = Some [Byte.x5b; Byte.x5d]) as Hleft
    by reflexivity.
  assert (project !! ("old.json" +:+ ".gz") = None) as Hnew by reflexivity.
  split; [exact Hput|]. split; [exact Hok|]. split; [exact Hleft|].
  split; [reflexivity|]. split; [exact Hnew|].
  exact (upload_to_s3_uploads_leftovers listdir_entries unpack never listdir_entries_names
           project m "old.json" [Byte.x5b; Byte.x5d] Hput Hok Hleft eq_refl Hnew).
Defined.

(** X27, at a project directory with one archive. *)
Lemma upload_to_s3_twice_witness :
  let project : gmap string bytes := {["e.json.gz" := [Byte.x7b; Byte.x7d]]} in
  let m := {| extracted_json_data := ∅; bucket := ∅ |} in
  let unpack := fun data : bytes => (data, true) in
  let never := fun _ : string => false in
  let m1 := fst (upload_to_s3 listdir_entries unpack never (Some project) m) in
  (forall key, never key = false) /\
  (forall filename gz, project !! filename = Some gz -> endswith ".gz" filename = true ->
     snd (unpack gz) = true /\ filename <> ".gz") /\
  upload_to_s3 listdir_entries unpack never (Some project) m1
  = (m1, {| statusCode := 200; message := "success" |}).
Proof.
  intros project m unpack never m1.
  assert (forall key, never key = false) as Hput by reflexivity.
  assert (forall filename gz, project !! filename = Some gz ->
            endswith ".gz" filename = true ->
            snd (unpack gz) = true /\ filename <> ".gz") as Hok.
  { intros filename gz [<- _]%lookup_singleton_Some _. split; [reflexivity | discriminate]. }
  split; [exact Hput|]. split; [exact Hok|].
  exact (upload_to_s3_twice listdir_entries unpack never listdir_entries_names
           project m Hput Hok).
Defined.

(** X22, at a project directory whose one archive is cut short. *)
Lemma upload_to_s3_bad_archive_witness :
  let project : gmap string bytes := {["e.json.gz" := [Byte.x1f; Byte.x8b]]} in
  let m := {| extracted_json_data := ∅;
              bucket := {["amplitude/kept.json" := [Byte.x7b; Byte.x7d]]} |} in
  let cut_short := fun _ : bytes => (@nil Byte.byte, false) in
  let never := fun _ : string => false in
  let run := upload_to_s3 listdir_entries cut_short never (Some project) m in
  project !! "e.json.gz" = Some [Byte.x1f; Byte.x8b] /\
  endswith ".gz" "e.json.gz" = true /\
  snd (cut_short [Byte.x1f; Byte.x8b]) = false /\
  (snd run = {| statusCode := 500; message := "Failed" |} /\
   bucket (fst run) = bucket m).
Proof.
  intros project m cut_short never run.
  assert (project !! "e.json.gz" = Some [Byte.x1f; Byte.x8b]) as Hp by reflexivity.
  split; [exact Hp|]. split; [reflexivity|]. split; [reflexivity|].
  exact (upload_to_s3_bad_archive listdir_entries cut_short never listdir_entries_names
           project m "e.json.gz" [Byte.x1f; Byte.x8b] Hp eq_refl eq_refl).
Defined.

End UploadFacts.
